(** * bright-smile-attend: the live attendance page and its roll

    A shallow embedding of [src/pages/LiveAttendance.tsx]: the component
    state held in React hooks, the handlers that mutate it and the roll
    that [saveAttendance] hands to the [attendance_records] table.

    The page talks to three collaborators: the [students] table (read once
    when the page mounts), the face-api model loader (run once when the page
    mounts) and the [attendance_records] table (written by Save).  Their
    answers are inputs of the handlers; what the page sends to them is
    recorded in a list of effects. *)

From Stdlib Require Import List String Ascii Bool Arith ZArith QArith Lia Lqa.
From Stdlib Require Import Qabs DecimalString.
From Stdlib Require DecimalNat Nnat.
Import ListNotations.

Close Scope Q_scope.
Local Open Scope nat_scope.
Local Open Scope string_scope.

(* ================================================================= *)
(** ** The JavaScript built-ins the page relies on *)

Module Js.

(** A JavaScript number as far as the page needs it: [parseInt] yields an
    integer or [NaN]. *)
Inductive Number := NaN | Num (z : Z).

Definition number_eqb (a b : Number) : bool :=
  match a, b with
  | Num x, Num y => Z.eqb x y
  | _, _ => false                       (* NaN === anything is false *)
  end.

(** [s.includes(search)] *)
Fixpoint includes (s search : string) : bool :=
  if String.prefix search s then true
  else match s with
       | EmptyString => false
       | String _ rest => includes rest search
       end.

(** [n.toString()] for a non-negative integer. *)
Definition toString (n : nat) : string :=
  NilEmpty.string_of_uint (Nat.to_uint n).

(** Template interpolation of a number. *)
Definition number_to_string (n : Number) : string :=
  match n with
  | NaN => "NaN"
  | Num z => NilEmpty.string_of_int (Z.to_int z)
  end.

Definition is_white_space (c : ascii) : bool :=
  match nat_of_ascii c with
  | 9 | 10 | 11 | 12 | 13 | 32 => true
  | _ => false
  end.

Fixpoint skip_white_space (s : string) : string :=
  match s with
  | String c rest => if is_white_space c then skip_white_space rest else s
  | EmptyString => s
  end.

(** Value of a character as a digit of the given radix. *)
Definition digit_value (radix : Z) (c : ascii) : option Z :=
  (let n := Z.of_nat (nat_of_ascii c) in
   let v := if (48 <=? n) && (n <=? 57) then Some (n - 48)
            else if (97 <=? n) && (n <=? 122) then Some (n - 87)
            else if (65 <=? n) && (n <=? 90) then Some (n - 55)
            else None in
   match v with
   | Some d => if d <? radix then Some d else None
   | None => None
   end)%Z.

(** Longest prefix of digits, read as a number; [acc] is [None] until a
    first digit has been seen. *)
Fixpoint parse_digits (radix : Z) (acc : option Z) (s : string) : option Z :=
  match s with
  | EmptyString => acc
  | String c rest =>
      match digit_value radix c with
      | Some d =>
          parse_digits radix
            (Some (match acc with Some a => a * radix + d | None => d end)%Z)
            rest
      | None => acc
      end
  end.

Definition strip_hex_prefix (s : string) : option string :=
  match s with
  | String "0" (String "x" rest) => Some rest
  | String "0" (String "X" rest) => Some rest
  | _ => None
  end.

(** [parseInt(s)] with no radix argument. *)
Definition parseInt (s : string) : Number :=
  let s := skip_white_space s in
  let '(negative, s) :=
    match s with
    | String "-" rest => (true, rest)
    | String "+" rest => (false, rest)
    | _ => (false, s)
    end in
  let magnitude :=
    match strip_hex_prefix s with
    | Some rest => parse_digits 16 None rest
    | None => parse_digits 10 None s
    end in
  match magnitude with
  | Some m => Num (if negative then - m else m)
  | None => NaN
  end.

(** A point in time from year 0 on, by its UTC fields ([getUTCMonth] counts
    from 0). *)
Record Date := {
  utcFullYear : N;
  utcMonth : N;
  utcDate : N;
  utcHours : N;
  utcMinutes : N;
  utcSeconds : N;
  utcMilliseconds : N
}.

Definition digit_char (d : N) : ascii :=
  match d with
  | 0 => "0" | 1 => "1" | 2 => "2" | 3 => "3" | 4 => "4"
  | 5 => "5" | 6 => "6" | 7 => "7" | 8 => "8" | _ => "9"
  end%N%char.

(** The [width] low decimal digits of [n], most significant first. *)
Fixpoint fixed_digits (width : nat) (n : N) : string :=
  match width with
  | O => EmptyString
  | S w => String (digit_char ((n / 10 ^ N.of_nat w) mod 10)%N) (fixed_digits w n)
  end.

(** [d.toISOString()]: [YYYY-MM-DDTHH:mm:ss.sssZ], with the expanded
    six-digit year beyond 9999. *)
Definition toISOString (d : Date) : string :=
  (if (utcFullYear d <=? 9999)%N then fixed_digits 4 (utcFullYear d)
   else "+" ++ fixed_digits 6 (utcFullYear d))
  ++ "-" ++ fixed_digits 2 (utcMonth d + 1)%N
  ++ "-" ++ fixed_digits 2 (utcDate d)
  ++ "T" ++ fixed_digits 2 (utcHours d)
  ++ ":" ++ fixed_digits 2 (utcMinutes d)
  ++ ":" ++ fixed_digits 2 (utcSeconds d)
  ++ "." ++ fixed_digits 3 (utcMilliseconds d)
  ++ "Z".

(** [s.split(sep)[0]] for a one-character separator: the part of [s]
    before the first [sep], all of [s] when there is none. *)
Fixpoint split_first (sep : ascii) (s : string) : string :=
  match s with
  | EmptyString => EmptyString
  | String c rest =>
      if Ascii.eqb c sep then EmptyString else String c (split_first sep rest)
  end.

(** A JSON value as sent to the database. *)
Inductive Value :=
| VString (s : string)
| VNumber (n : Number).

(** An object literal: its keys in order of appearance, with their values. *)
Definition Object := list (string * Value).

Definition keys (o : Object) : list string := map fst o.

Fixpoint get (key : string) (o : Object) : option Value :=
  match o with
  | [] => None
  | (k, v) :: rest => if String.eqb k key then Some v else get key rest
  end.

End Js.

(* ================================================================= *)
(** ** Data model of the page *)

Inductive Status := present | sleepy | absent.

(** The string a status is in TypeScript (a union of string literals). *)
Definition status_string (s : Status) : string :=
  match s with
  | present => "present"
  | sleepy => "sleepy"
  | absent => "absent"
  end.

Module Student.
Record t := {
  id : string;
  full_name : string;
  roll_number : string;
  photo_url : option string
}.
End Student.

Module User.
Record t := { id : string }.
End User.

Record AttendanceEntry := {
  studentId : string;
  studentName : string;
  rollNumber : string;
  status : Status
}.

(** The hooks of [LiveAttendance]. *)
Record State := {
  cameraOn : bool;
  selectedPeriod : string;
  period8Free : bool;
  students : list Student.t;
  attendance : list AttendanceEntry;
  saving : bool;
  faceApiLoaded : bool
}.

Definition init : State := {|
  cameraOn := false;
  selectedPeriod := "1";
  period8Free := false;
  students := [];
  attendance := [];
  saving := false;
  faceApiLoaded := false
|}.

Definition setCameraOn (b : bool) (st : State) : State :=
  {| cameraOn := b; selectedPeriod := selectedPeriod st;
     period8Free := period8Free st; students := students st;
     attendance := attendance st; saving := saving st;
     faceApiLoaded := faceApiLoaded st |}.

Definition setSelectedPeriod (v : string) (st : State) : State :=
  {| cameraOn := cameraOn st; selectedPeriod := v;
     period8Free := period8Free st; students := students st;
     attendance := attendance st; saving := saving st;
     faceApiLoaded := faceApiLoaded st |}.

Definition setPeriod8Free (b : bool) (st : State) : State :=
  {| cameraOn := cameraOn st; selectedPeriod := selectedPeriod st;
     period8Free := b; students := students st;
     attendance := attendance st; saving := saving st;
     faceApiLoaded := faceApiLoaded st |}.

Definition setStudents (l : list Student.t) (st : State) : State :=
  {| cameraOn := cameraOn st; selectedPeriod := selectedPeriod st;
     period8Free := period8Free st; students := l;
     attendance := attendance st; saving := saving st;
     faceApiLoaded := faceApiLoaded st |}.

Definition setAttendance (f : list AttendanceEntry -> list AttendanceEntry)
    (st : State) : State :=
  {| cameraOn := cameraOn st; selectedPeriod := selectedPeriod st;
     period8Free := period8Free st; students := students st;
     attendance := f (attendance st); saving := saving st;
     faceApiLoaded := faceApiLoaded st |}.

Definition setSaving (b : bool) (st : State) : State :=
  {| cameraOn := cameraOn st; selectedPeriod := selectedPeriod st;
     period8Free := period8Free st; students := students st;
     attendance := attendance st; saving := b;
     faceApiLoaded := faceApiLoaded st |}.

Definition setFaceApiLoaded (b : bool) (st : State) : State :=
  {| cameraOn := cameraOn st; selectedPeriod := selectedPeriod st;
     period8Free := period8Free st; students := students st;
     attendance := attendance st; saving := saving st;
     faceApiLoaded := b |}.

(** What the page sends to the outside. *)
Inductive Effect :=
| Insert (table : string) (rows : list Js.Object)
| ToastInfo (msg : string)
| ToastError (msg : string)
| ToastSuccess (msg : string)
| ConsoleLog (msg : string).

(* ================================================================= *)
(** ** The handlers *)

(** [fetchStudents]: [data] is the answer of the [students] query, [None]
    when it brought nothing. *)
Definition fetchStudents (data : option (list Student.t)) (st : State) : State :=
  match data with
  | Some data =>
      setAttendance
        (fun _ =>
           map (fun s => {| studentId := Student.id s;
                            studentName := Student.full_name s;
                            rollNumber := Student.roll_number s;
                            status := absent |}) data)
        (setStudents data st)
  | None => st
  end.

(** How the loading of the recognition models ends. *)
Inductive LoadOutcome :=
| ImportFailed          (* the dynamic import of face-api.js throws *)
| ModelsFailed          (* one of the three loadFromUri calls rejects *)
| ModelsLoaded.

Definition loadModels (outcome : LoadOutcome) (st : State) : State * list Effect :=
  match outcome with
  | ModelsLoaded => (setFaceApiLoaded true st, [])
  | ModelsFailed =>
      (st, [ConsoleLog "Face-api models not available, using manual mode"])
  | ImportFailed =>
      (st, [ConsoleLog "Face-api not available, using manual mode"])
  end.

Definition updateStatus (sid : string) (s : Status) (st : State) : State :=
  setAttendance
    (map (fun a =>
            if String.eqb (studentId a) sid
            then {| studentId := studentId a; studentName := studentName a;
                    rollNumber := rollNumber a; status := s |}
            else a))
    st.

Definition markAllPresent (st : State) : State :=
  setAttendance
    (map (fun a => {| studentId := studentId a; studentName := studentName a;
                      rollNumber := rollNumber a; status := present |}))
    st.

(** The object literal built for one entry of the roll. *)
Definition record_of (today : string) (period : Js.Number) (user : User.t)
    (a : AttendanceEntry) : Js.Object :=
  [ ("student_id", Js.VString (studentId a));
    ("date", Js.VString today);
    ("period", Js.VNumber period);
    ("status", Js.VString (status_string (status a)));
    ("verified_by", Js.VString (User.id user)) ].

(** [saveAttendance]: [user] is the signed-in user if any, [now] the clock,
    [error] the answer of the insert ([None] for success, otherwise the
    error's message) should the insert be reached. *)
Definition saveAttendance (user : option User.t) (now : Js.Date)
    (error : option string) (st : State) : State * list Effect :=
  match user with
  | None => (st, [])
  | Some u =>
      let st := setSaving true st in
      let period := Js.parseInt (selectedPeriod st) in
      if Js.number_eqb period (Js.Num 8) && period8Free st then
        (setSaving false st,
         [ToastInfo "Period 8 is marked as free. No attendance recorded."])
      else
        let today := Js.split_first "T" (Js.toISOString now) in
        let records := map (record_of today period u) (attendance st) in
        let report :=
          match error with
          | Some message =>
              if Js.includes message "duplicate"
              then ToastError "Attendance already recorded for this period today"
              else ToastError message
          | None =>
              ToastSuccess
                ("Attendance saved for Period " ++ Js.number_to_string period ++ "!")
          end in
        (setSaving false st, [Insert "attendance_records" records; report])
  end.

Definition maxPeriods (st : State) : nat := if period8Free st then 7 else 8.

(** The values of the items the period select offers. *)
Definition period_options (st : State) : list string :=
  map Js.toString (map (fun i => i + 1) (seq 0 (maxPeriods st))).

(* ================================================================= *)
(** ** The page as a machine driven by events *)

Local Open Scope list_scope.

Inductive Event :=
| StudentsFetched (data : option (list Student.t))   (* the students query settles *)
| ModelsSettled (outcome : LoadOutcome)              (* the model loading settles *)
| ClickCamera
| SelectPeriod (value : string)
| SwitchPeriod8Free (checked : bool)
| ClickStatus (sid : string) (s : Status)
| ClickMarkAllPresent
| ClickSave (user : option User.t) (now : Js.Date) (error : option string).

Definition handle (ev : Event) (st : State) : State * list Effect :=
  match ev with
  | StudentsFetched data => (fetchStudents data st, [])
  | ModelsSettled outcome => loadModels outcome st
  | ClickCamera => (setCameraOn (negb (cameraOn st)) st, [])
  | SelectPeriod value =>
      (* only the items of the select can be chosen *)
      if existsb (String.eqb value) (period_options st)
      then (setSelectedPeriod value st, [])
      else (st, [])
  | SwitchPeriod8Free checked => (setPeriod8Free checked st, [])
  | ClickStatus sid s => (updateStatus sid s st, [])
  | ClickMarkAllPresent => (markAllPresent st, [])
  | ClickSave user now error =>
      (* the button is disabled while a save is under way *)
      if saving st then (st, []) else saveAttendance user now error st
  end.

Fixpoint run (evs : list Event) (st : State) : State * list Effect :=
  match evs with
  | [] => (st, [])
  | ev :: rest =>
      let '(st1, out1) := handle ev st in
      let '(st2, out2) := run rest st1 in
      (st2, out1 ++ out2)
  end.

(** The rolls handed to the database by a list of effects. *)
Definition inserted (effs : list Effect) : list (list Js.Object) :=
  flat_map (fun e => match e with Insert _ rows => [rows] | _ => [] end) effs.

(** The list of students the page knows: what the last settled query
    brought, starting from [known]. *)
Fixpoint fetched (evs : list Event) (known : list Student.t) : list Student.t :=
  match evs with
  | [] => known
  | StudentsFetched (Some data) :: rest => fetched rest data
  | _ :: rest => fetched rest known
  end.

(** Events that set the status of student [sid] by hand. *)
Definition sets_status (sid : string) (ev : Event) : bool :=
  match ev with
  | ClickStatus i _ => String.eqb i sid
  | ClickMarkAllPresent => true
  | _ => false
  end.

(** Events after which the status of [sid] may differ: a status set by
    hand, or the roll being initialised anew. *)
Definition touches (sid : string) (ev : Event) : bool :=
  match ev with
  | StudentsFetched (Some _) => true
  | _ => sets_status sid ev
  end.

Definition is_log (e : Effect) : bool :=
  match e with ConsoleLog _ => true | _ => false end.

Definition is_load (ev : Event) : bool :=
  match ev with ModelsSettled _ => true | _ => false end.

Definition failed (outcome : LoadOutcome) : bool :=
  match outcome with ModelsLoaded => false | _ => true end.

Definition is_digit (c : ascii) : bool :=
  (48 <=? nat_of_ascii c)%nat && (nat_of_ascii c <=? 57)%nat.

(** The calendar date form of ISO 8601, [YYYY-MM-DD]. *)
Definition is_iso_date (s : string) : bool :=
  match list_ascii_of_string s with
  | [y1; y2; y3; y4; h1; m1; m2; h2; d1; d2] =>
      forallb is_digit [y1; y2; y3; y4; m1; m2; d1; d2]
      && Ascii.eqb h1 "-" && Ascii.eqb h2 "-"
  | _ => false
  end.

(** The condition under which a save records nothing: the selected period
    reads 8 and the period-8-is-free switch is on. *)
Definition free_period8 (st : State) : bool :=
  Js.number_eqb (Js.parseInt (selectedPeriod st)) (Js.Num 8) && period8Free st.

(** Every entry of the roll in memory stands for the student at the same
    place of the list of students. *)
Definition roll_complete (st : State) : Prop :=
  map studentId (attendance st) = map Student.id (students st).

(** Every entry of the roll in memory that stands for [sid] has status [v]. *)
Definition has_status (sid : string) (v : Status) (st : State) : Prop :=
  forall a, In a (attendance st) -> studentId a = sid -> status a = v.

(** Every record of the roll [rows] that stands for [sid] has status [v]. *)
Definition rows_have_status (sid : string) (v : Status) (rows : list Js.Object) : Prop :=
  forall r, In r rows ->
    Js.get "student_id" r = Some (Js.VString sid) ->
    Js.get "status" r = Some (Js.VString (status_string v)).

(** The roll in memory has an entry of [sid], with status [v]. *)
Definition marked (sid : string) (v : Status) (st : State) : Prop :=
  exists a, In a (attendance st) /\ studentId a = sid /\ status a = v.

(** The roll [rows] has a record of [sid], with status [v]. *)
Definition rows_mark (sid : string) (v : Status) (rows : list Js.Object) : Prop :=
  exists r, In r rows /\
            Js.get "student_id" r = Some (Js.VString sid) /\
            Js.get "status" r = Some (Js.VString (status_string v)).

Module Sample.
Definition alice : Student.t :=
  {| Student.id := "s1"; Student.full_name := "Alice";
     Student.roll_number := "1"; Student.photo_url := None |}.
Definition bob : Student.t :=
  {| Student.id := "s2"; Student.full_name := "Bob";
     Student.roll_number := "2"; Student.photo_url := None |}.
Definition teacher : User.t := {| User.id := "u1" |}.
Definition now : Js.Date :=
  {| Js.utcFullYear := 2024; Js.utcMonth := 4; Js.utcDate := 1;
     Js.utcHours := 9; Js.utcMinutes := 55; Js.utcSeconds := 7;
     Js.utcMilliseconds := 42 |}.
Definition later : Js.Date :=
  {| Js.utcFullYear := 2024; Js.utcMonth := 4; Js.utcDate := 1;
     Js.utcHours := 10; Js.utcMinutes := 20; Js.utcSeconds := 0;
     Js.utcMilliseconds := 0 |}.
Definition duplicate_message : string :=
  "duplicate key value violates unique constraint".
End Sample.

(** The values the period select can ever offer. *)
Definition all_periods : list string :=
  map Js.toString [1; 2; 3; 4; 5; 6; 7; 8].

(** A record as [saveAttendance] builds it, for a given date and period, by
    the user of id [uid]. *)
Definition committed_record (date : string) (period : Z) (uid : string)
    (r : Js.Object) : Prop :=
  Js.keys r = ["student_id"; "date"; "period"; "status"; "verified_by"] /\
  (exists sid, Js.get "student_id" r = Some (Js.VString sid)) /\
  Js.get "date" r = Some (Js.VString date) /\
  Js.get "period" r = Some (Js.VNumber (Js.Num period)) /\
  (exists s, Js.get "status" r = Some (Js.VString s) /\
             In s ["present"; "sleepy"; "absent"]) /\
  Js.get "verified_by" r = Some (Js.VString uid).

(* ================================================================= *)
(** ** The automatic path: aggregator and matcher

    The page only loads the recognition models.  Detection, matching and
    tallying belong to the repository's Python tool
    ([tools/facial_attendance/facerecognition.py]), whose code is not
    available here; the aggregator and the matcher are therefore modelled
    from the specification. *)

Module Aggregator.

Inductive Engagement := attentive | drowsy.

(** Modelled from the spec: the running tally the Session Aggregator
    keeps per identity (spec 3, SessionState); the aggregator's code is
    missing. *)
Record Tally := {
  count_seen : nat;
  count_drowsy : nat;
  last_seen_timestamp : option nat
}.

Definition zero_tally : Tally :=
  {| count_seen := 0; count_drowsy := 0; last_seen_timestamp := None |}.

(** Modelled from the spec: a MatchResult paired with its
    EngagementSample (spec 3); [identity] is [None] for unknown. *)
Record Sample := {
  identity : option string;
  label : Engagement;
  timestamp : nat
}.

Definition SessionState := list (string * Tally).

(** Modelled from the spec: a session starts with every enrolled identity
    present and zero-tally (spec 3). *)
Definition open_session (gallery : list string) : SessionState :=
  map (fun i => (i, zero_tally)) gallery.

(** Modelled from the spec: the first transition of spec 4.5: increment
    [count_seen]; if the label is drowsy, increment [count_drowsy]; update
    [last_seen_timestamp]. *)
Definition tally_sample (l : Engagement) (ts : nat) (t : Tally) : Tally :=
  {| count_seen := S (count_seen t);
     count_drowsy := match l with
                     | drowsy => S (count_drowsy t)
                     | attentive => count_drowsy t
                     end;
     last_seen_timestamp := Some ts |}.

(** Modelled from the spec: a sample updates the tally of its identity;
    an unknown one updates no tally (spec 4.5). *)
Definition observe (ss : SessionState) (s : Sample) : SessionState :=
  match identity s with
  | None => ss
  | Some i =>
      map (fun e => if String.eqb (fst e) i
                    then (fst e, tally_sample (label s) (timestamp s) (snd e))
                    else e) ss
  end.

(** Modelled from the spec: the aggregator as a reducer over the ordered
    stream of samples (spec 9). *)
Definition aggregate (samples : list Sample) (ss : SessionState) : SessionState :=
  fold_left observe samples ss.

(** Modelled from the spec: count_drowsy / count_seen (spec 4.5). *)
Definition drowsy_fraction (t : Tally) : Q :=
  Z.of_nat (count_drowsy t) # Pos.of_nat (count_seen t).

(** Modelled from the spec: the drowsiness-majority fraction is
    configurable, with default 0.5 (spec 4.5). *)
Definition default_majority : Q := 1 # 2.

(** Modelled from the spec: the rule at period close (spec 4.5): absent
    if never seen, sleepy if the drowsy fraction exceeds the majority
    fraction, present otherwise. *)
Definition final_status (majority : Q) (t : Tally) : Status :=
  if Nat.eqb (count_seen t) 0 then absent
  else if Qle_bool (drowsy_fraction t) majority then present
  else sleepy.

(** Modelled from the spec: at period close every identity gets its final
    status (spec 4.5). *)
Definition finalize (majority : Q) (ss : SessionState) : list (string * Status) :=
  map (fun e => (fst e, final_status majority (snd e))) ss.

(** Student A seen in ten frames, drowsy in six of them. *)
Definition ten_frames_six_drowsy : list Sample :=
  map (fun n => {| identity := Some "A";
                   label := if Nat.ltb n 6 then drowsy else attentive;
                   timestamp := n |})
      (seq 0 10).

End Aggregator.

Module Matcher.

Section WithDistance.

Variable Descriptor : Type.
(** Euclidean or cosine, fixed consistently (spec 4.4). *)
Variable distance : Descriptor -> Descriptor -> Q.

(** Modelled from the spec: an Identity of the Gallery Store (spec 3);
    the gallery's code is missing. *)
Record Identity := {
  student_id : string;
  display_name : string;
  roll_number : string;
  reference_embeddings : list Descriptor
}.

(** [None] stands for unknown. *)
Record MatchResult := {
  identity : option string;
  distance_score : option Q
}.

Fixpoint minimum (l : list Q) : option Q :=
  match l with
  | [] => None
  | x :: rest =>
      match minimum rest with
      | None => Some x
      | Some m => Some (if Qle_bool x m then x else m)
      end
  end.

(** Modelled from the spec: the distance to an identity is the minimum
    over its reference embeddings (spec 4.4). *)
Definition identity_distance (d : Descriptor) (i : Identity) : option Q :=
  minimum (map (distance d) (reference_embeddings i)).

Definition scores (d : Descriptor) (gallery : list Identity)
  : list (Identity * Q) :=
  flat_map (fun i => match identity_distance d i with
                     | Some x => [(i, x)]
                     | None => []
                     end) gallery.

(** Modelled from the spec: the identity with the globally minimum
    distance (spec 4.4). *)
Fixpoint nearest (l : list (Identity * Q)) : option (Identity * Q) :=
  match l with
  | [] => None
  | c :: rest =>
      match nearest rest with
      | None => Some c
      | Some best => if Qle_bool (snd c) (snd best) then Some c else Some best
      end
  end.

(** Modelled from the spec: within epsilon of the minimum distance [m]
    (spec 4.4). *)
Definition within_epsilon (epsilon m : Q) (c : Identity * Q) : bool :=
  Qle_bool (snd c - m) epsilon.

(** Modelled from the spec: the Matcher (spec 4.4): take the identity
    with the globally minimum distance; unknown if that minimum exceeds
    the threshold; unknown if several identities are within epsilon of
    that minimum; the matcher's code is missing. *)
Definition match_descriptor (threshold epsilon : Q) (d : Descriptor)
    (gallery : list Identity) : MatchResult :=
  let candidates := scores d gallery in
  match nearest candidates with
  | None => {| identity := None; distance_score := None |}
  | Some (best, m) =>
      if negb (Qle_bool m threshold) then
        {| identity := None; distance_score := Some m |}
      else if (2 <=? List.length (filter (within_epsilon epsilon m) candidates))%nat then
        {| identity := None; distance_score := Some m |}
      else
        {| identity := Some (student_id best); distance_score := Some m |}
  end.

End WithDistance.

Arguments student_id {Descriptor} _.
Arguments reference_embeddings {Descriptor} _.
Arguments identity_distance {Descriptor} distance d i.
Arguments scores {Descriptor} distance d gallery.
Arguments nearest {Descriptor} l.
Arguments within_epsilon {Descriptor} epsilon m c.
Arguments match_descriptor {Descriptor} distance threshold epsilon d gallery.

(** Descriptors on a line, for examples. *)
Definition line_distance (a b : Q) : Q := Qabs (a - b).

Definition on_line (sid : string) (at_ : Q) : Identity Q :=
  {| student_id := sid; display_name := sid; roll_number := sid;
     reference_embeddings := [at_] |}.

End Matcher.

(* ================================================================= *)
(** ** More of the live attendance page: what it renders *)

Record PeriodTime := {
  start : string;
  end_ : string;
  label : string
}.

Definition periodTimes : list (nat * PeriodTime) :=
  [ (1, {| start := "09:50"; end_ := "10:50"; label := "Period 1 (9:50 - 10:50)" |});
    (2, {| start := "10:50"; end_ := "11:50"; label := "Period 2 (10:50 - 11:50)" |});
    (3, {| start := "11:50"; end_ := "12:50"; label := "Period 3 (11:50 - 12:50)" |});
    (4, {| start := "12:50"; end_ := "13:30"; label := "Period 4 (12:50 - 1:30)" |});
    (5, {| start := "13:30"; end_ := "14:30"; label := "Period 5 (1:30 - 2:30)" |});
    (6, {| start := "14:30"; end_ := "15:30"; label := "Period 6 (2:30 - 3:30)" |});
    (7, {| start := "15:30"; end_ := "16:30"; label := "Period 7 (3:30 - 4:30)" |});
    (8, {| start := "16:30"; end_ := "17:30";
           label := "Period 8 (4:30 - 5:30) - Optional" |}) ].

(** [periodTimes[p]], [None] for [undefined]. *)
Definition periodTimes_at (p : nat) : option PeriodTime :=
  option_map snd (find (fun e => Nat.eqb (fst e) p) periodTimes).

(** The items of the period select: value and label, the label being
    [periodTimes[p].label] ([None] where that would throw). *)
Definition period_items (st : State) : list (string * option string) :=
  map (fun p => (Js.toString p, option_map label (periodTimes_at p)))
      (map (fun i => i + 1) (seq 0 (maxPeriods st))).

(** [students.find((s) => s.id === entry.studentId)] of a row of the list. *)
Definition student_of_entry (st : State) (entry : AttendanceEntry)
  : option Student.t :=
  find (fun s => String.eqb (Student.id s) (studentId entry)) (students st).

(** What stands for the student at the left of a row: the photo when the
    student found has a non-empty [photo_url], the first letter of the
    entry's name otherwise. *)
Inductive Avatar :=
| Photo (src alt : string)
| Initial (letter : string).

Definition charAt0 (s : string) : string :=
  match s with
  | EmptyString => EmptyString
  | String c _ => String c EmptyString
  end.

Definition row_avatar (st : State) (entry : AttendanceEntry) : Avatar :=
  match student_of_entry st entry with
  | Some s =>
      match Student.photo_url s with
      | Some url =>
          if String.eqb url "" then Initial (charAt0 (studentName entry))
          else Photo url (studentName entry)
      | None => Initial (charAt0 (studentName entry))
      end
  | None => Initial (charAt0 (studentName entry))
  end.

(** What identifies a student in an entry of the roll, and in the list of
    students. *)
Definition entry_identity (a : AttendanceEntry) : string * string * string :=
  (studentId a, studentName a, rollNumber a).

Definition student_identity (s : Student.t) : string * string * string :=
  (Student.id s, Student.full_name s, Student.roll_number s).

(** The avatar of a student drawn from the student's own record. *)
Definition student_avatar (s : Student.t) : Avatar :=
  match Student.photo_url s with
  | Some url =>
      if String.eqb url "" then Initial (charAt0 (Student.full_name s))
      else Photo url (Student.full_name s)
  | None => Initial (charAt0 (Student.full_name s))
  end.

Definition is_camera (ev : Event) : bool :=
  match ev with ClickCamera => true | _ => false end.

Definition is_toast (e : Effect) : bool :=
  match e with
  | ToastInfo _ | ToastError _ | ToastSuccess _ => true
  | _ => false
  end.

(** A click on Save by a signed-in user. *)
Definition is_signed_save (ev : Event) : bool :=
  match ev with ClickSave (Some _) _ _ => true | _ => false end.

(** The UTC day of a point in time. *)
Definition utc_day (d : Js.Date) : N * N * N :=
  (Js.utcFullYear d, Js.utcMonth d, Js.utcDate d).

(* ================================================================= *)
(** ** Around the live page: the layout, the faculty page, the records page *)

(** The profile [useAuth] hands to the pages, by the fields they read. *)
Module Profile.
Record t := {
  id : string;
  full_name : option string;
  role : string;
  principal_id : option string;
  school_name : option string
}.
End Profile.

(** [profile?.role === "principal"] *)
Definition is_principal (profile : option Profile.t) : bool :=
  match profile with
  | Some p => String.eqb (Profile.role p) "principal"
  | None => false
  end.

(** [src/components/DashboardLayout.tsx] *)
Module DashboardLayout.

Record NavItem := {
  label : string;
  icon : string;
  path : string
}.

Definition navItems : list NavItem :=
  [ {| label := "Dashboard"; icon := "LayoutDashboard"; path := "/dashboard" |};
    {| label := "Students"; icon := "Users"; path := "/students" |};
    {| label := "Attendance"; icon := "ClipboardList"; path := "/attendance" |};
    {| label := "Live Attendance"; icon := "Camera"; path := "/live-attendance" |} ].

Definition principalItems : list NavItem :=
  [ {| label := "Faculty"; icon := "UserPlus"; path := "/faculty" |} ].

Definition allNavItems (profile : option Profile.t) : list NavItem :=
  if is_principal profile then navItems ++ principalItems else navItems.

(** [location.pathname === item.path] *)
Definition active (pathname : string) (item : NavItem) : bool :=
  String.eqb pathname (path item).

(** The effect of the layout: where it sends the router, if anywhere. *)
Definition redirect (loading : bool) (user : option User.t) : option string :=
  match user with
  | None => if negb loading then Some "/login" else None
  | Some _ => None
  end.

End DashboardLayout.

(** [src/pages/Faculty.tsx]: the page answers anyone but a principal with
    "Only principals can manage faculty." *)
Module FacultyPage.

Definition restricted (profile : option Profile.t) : bool :=
  negb (is_principal profile).

End FacultyPage.

(** [src/pages/Attendance.tsx]: the records page. *)
Module AttendancePage.

Definition variants : list (string * string) :=
  [ ("present", "bg-accent/10 text-accent border-accent/20");
    ("sleepy", "bg-warning/10 text-warning border-warning/20");
    ("absent", "bg-destructive/10 text-destructive border-destructive/20") ].

(** [variants[status] || ""] *)
Definition variant_of (status : string) : string :=
  match find (fun e => String.eqb (fst e) status) variants with
  | Some e => snd e
  | None => ""
  end.

(** The class of the badge drawn by [statusBadge]; its text is the status. *)
Definition statusBadge (status : string) : string :=
  "inline-flex items-center rounded-full border px-2.5 py-0.5 text-xs font-semibold capitalize "
  ++ variant_of status.

Definition periodTimes : list (Z * string) :=
  [ (1, "9:50 - 10:50");
    (2, "10:50 - 11:50");
    (3, "11:50 - 12:50");
    (4, "12:50 - 1:30 (Lunch)");
    (5, "1:30 - 2:30");
    (6, "2:30 - 3:30");
    (7, "3:30 - 4:30");
    (8, "4:30 - 5:30 (Optional)") ]%Z.

(** [periodTimes[r.period]], [None] for [undefined]. *)
Definition periodTimes_at (period : Js.Number) : option string :=
  match period with
  | Js.Num p => option_map snd (find (fun e => Z.eqb (fst e) p) periodTimes)
  | Js.NaN => None
  end.

(** What the table shows of a stored record: the period, its time and
    the badge class, where the record has a period and a status. *)
Definition row_cells (r : Js.Object)
  : option (Js.Number * option string * string) :=
  match Js.get "period" r, Js.get "status" r with
  | Some (Js.VNumber period), Some (Js.VString status) =>
      Some (period, periodTimes_at period, statusBadge status)
  | _, _ => None
  end.

End AttendancePage.

(* ================================================================= *)
(** ** The forms: joining as faculty, registering, adding a student

    Each handler is a function of the form's state and of the answers of
    the services it awaits, and returns the state it leaves and what it sent
    out, in order. *)

(** [src/pages/JoinFaculty.tsx] *)
Module JoinFaculty.

(** A row of [faculty_codes], by the fields the page reads. *)
Record CodeRow := {
  id : string;
  principal_id : string
}.

Record State := {
  code : string;
  fullName : string;
  email : string;
  password : string;
  loading : bool
}.

Definition setLoading (b : bool) (st : State) : State :=
  {| code := code st; fullName := fullName st; email := email st;
     password := password st; loading := b |}.

Inductive Effect :=
| SelectUnusedCode (code : string)
    (* faculty_codes: select * where code = .. and is_used = false, single *)
| SignUp (email password : string)
| InsertProfile (id full_name role principal_id : string)
| MarkCodeUsed (code_id : string)
    (* faculty_codes: update is_used = true where id = .. *)
| ToastError (msg : string)
| ToastSuccess (msg : string)
| Navigate (path : string).

(** The answers of the services, each read only if its request is made. *)
Record Replies := {
  codeData : option CodeRow;
  codeError : option string;
  signUpUser : option string;        (* data.user.id *)
  signUpError : option string;
  profileError : option string;
  markUsedError : option string
}.

Definition handleJoin (r : Replies) (st : State) : State * list Effect :=
  let st := setLoading true st in
  let lookup := SelectUnusedCode (code st) in
  match codeError r, codeData r with
  | None, Some codeData =>
      let signUp := SignUp (email st) (password st) in
      match signUpError r with
      | Some message =>
          (setLoading false st, [lookup; signUp; ToastError message])
      | None =>
          match signUpUser r with
          | Some uid =>
              let insert :=
                InsertProfile uid (fullName st) "faculty" (principal_id codeData) in
              match profileError r with
              | Some message =>
                  (setLoading false st,
                   [lookup; signUp; insert; ToastError message])
              | None =>
                  (* the answer of the update is not looked at *)
                  (setLoading false st,
                   [lookup; signUp; insert; MarkCodeUsed (id codeData);
                    ToastSuccess
                      "Faculty account created! Check your email to verify.";
                    Navigate "/login"])
              end
          | None => (setLoading false st, [lookup; signUp])
          end
      end
  | _, _ =>
      (setLoading false st,
       [lookup; ToastError "Invalid or already used faculty code"])
  end.

Definition is_toast (e : Effect) : bool :=
  match e with ToastError _ | ToastSuccess _ => true | _ => false end.

Definition is_sign_up (e : Effect) : bool :=
  match e with SignUp _ _ => true | _ => false end.

Definition is_insert (e : Effect) : bool :=
  match e with InsertProfile _ _ _ _ => true | _ => false end.


Definition is_navigate (e : Effect) : bool :=
  match e with Navigate _ => true | _ => false end.

(** The lookup brought a row and no error. *)
Definition code_accepted (r : Replies) : bool :=
  match codeError r, codeData r with
  | None, Some _ => true
  | _, _ => false
  end.

Definition some {A} (o : option A) : bool :=
  match o with Some _ => true | None => false end.

Definition navigations (effs : list Effect) : list string :=
  flat_map (fun e => match e with Navigate p => [p] | _ => [] end) effs.

End JoinFaculty.

(** [src/pages/Register.tsx] *)
Module Register.

Record State := {
  fullName : string;
  schoolName : string;
  email : string;
  password : string;
  loading : bool
}.

Definition setLoading (b : bool) (st : State) : State :=
  {| fullName := fullName st; schoolName := schoolName st; email := email st;
     password := password st; loading := b |}.

Inductive Effect :=
| SignUp (email password : string)
| InsertProfile (id full_name role school_name : string)
| ToastError (msg : string)
| ToastSuccess (msg : string)
| Navigate (path : string).

Record Replies := {
  signUpUser : option string;        (* data.user.id *)
  signUpError : option string;
  profileError : option string
}.

Definition handleRegister (r : Replies) (st : State) : State * list Effect :=
  let st := setLoading true st in
  let signUp := SignUp (email st) (password st) in
  match signUpError r with
  | Some message => (setLoading false st, [signUp; ToastError message])
  | None =>
      match signUpUser r with
      | Some uid =>
          let insert :=
            InsertProfile uid (fullName st) "principal" (schoolName st) in
          match profileError r with
          | Some message =>
              (setLoading false st, [signUp; insert; ToastError message])
          | None =>
              (setLoading false st,
               [signUp; insert;
                ToastSuccess "Account created! Please check your email to verify.";
                Navigate "/login"])
          end
      | None => (setLoading false st, [signUp])
      end
  end.

Definition is_toast (e : Effect) : bool :=
  match e with ToastError _ | ToastSuccess _ => true | _ => false end.

Definition is_navigate (e : Effect) : bool :=
  match e with Navigate _ => true | _ => false end.

Definition navigations (effs : list Effect) : list string :=
  flat_map (fun e => match e with Navigate p => [p] | _ => [] end) effs.

End Register.

(** [src/pages/Students.tsx] *)
Module StudentsPage.

(** [s.split(sep).pop()]: the part of [s] after its last [sep], all of [s]
    when there is none ([acc] gathers the current part). *)
Fixpoint split_last_from (sep : ascii) (acc s : string) : string :=
  match s with
  | EmptyString => acc
  | String c rest =>
      if Ascii.eqb c sep then split_last_from sep EmptyString rest
      else split_last_from sep (acc ++ String c EmptyString) rest
  end.

Definition split_last (sep : ascii) (s : string) : string :=
  split_last_from sep EmptyString s.

Fixpoint contains (sep : ascii) (s : string) : bool :=
  match s with
  | EmptyString => false
  | String c rest => Ascii.eqb c sep || contains sep rest
  end.

(** A string as a condition: the empty one counts as false. *)
Definition truthy (s : string) : bool := negb (String.eqb s "").

(** [profile?.role === "principal" ? profile.id : profile?.principal_id],
    [None] when that is undefined, null or empty. *)
Definition principalId (profile : option Profile.t) : option string :=
  let raw :=
    match profile with
    | Some p =>
        if String.eqb (Profile.role p) "principal" then Some (Profile.id p)
        else Profile.principal_id p
    | None => None
    end in
  match raw with
  | Some pid => if truthy pid then Some pid else None
  | None => None
  end.

Record File := { name : string }.

Record State := {
  fullName : string;
  rollNumber : string;
  photo : option File;
  dialogOpen : bool
}.

Inductive Effect :=
| Upload (bucket path : string) (upsert : bool)
| InsertStudent (full_name roll_number principal_id : string)
                (photo_url : option string)
| FetchStudents
| ToastError (msg : string)
| ToastSuccess (msg : string).

Record Replies := {
  uploadError : option string;
  insertError : option string
}.

Section WithStorage.

(** [getPublicUrl(path).data.publicUrl] of the [student_photos] bucket. *)
Variable publicUrl : string -> string.

(** [handleAddStudent]: [now] is [Date.now()]. *)
Definition handleAddStudent (profile : option Profile.t) (now : Z)
    (r : Replies) (st : State) : State * list Effect :=
  match principalId profile with
  | None => (st, [ToastError "No principal linked to your account"])
  | Some pid =>
      let insert photoUrl before :=
        let row := InsertStudent (fullName st) (rollNumber st) pid photoUrl in
        match insertError r with
        | Some message => (st, before ++ [row; ToastError message])
        | None =>
            ({| fullName := ""; rollNumber := ""; photo := None;
                dialogOpen := false |},
             before ++ [row; ToastSuccess "Student added!"; FetchStudents])
        end in
      match photo st with
      | Some file =>
          let ext := split_last "." (name file) in
          let path :=
            (pid ++ "/" ++ Js.number_to_string (Js.Num now) ++ "." ++ ext)%string in
          let upload := Upload "student_photos" path false in
          match uploadError r with
          | Some _ => (st, [upload; ToastError "Failed to upload photo"])
          | None => insert (Some (publicUrl path)) [upload]
          end
      | None => insert None []
      end
  end.

End WithStorage.

Definition is_insert (e : Effect) : bool :=
  match e with InsertStudent _ _ _ _ => true | _ => false end.

Definition is_upload (e : Effect) : bool :=
  match e with Upload _ _ _ => true | _ => false end.

Definition is_fetch (e : Effect) : bool :=
  match e with FetchStudents => true | _ => false end.

Definition is_toast (e : Effect) : bool :=
  match e with ToastError _ | ToastSuccess _ => true | _ => false end.

(** The form as [handleAddStudent] leaves it after a success. *)
Definition cleared : State :=
  {| fullName := ""; rollNumber := ""; photo := None; dialogOpen := false |}.

End StudentsPage.

(* ================================================================= *)
(** ** Signing in, resetting a password, adding faculty, and the routes *)

(** [src/pages/Login.tsx] *)
Module Login.

Record State := {
  email : string;
  password : string;
  showPassword : bool;
  loading : bool
}.

Definition setLoading (b : bool) (st : State) : State :=
  {| email := email st; password := password st;
     showPassword := showPassword st; loading := b |}.

Inductive Effect :=
| SignIn (email password : string)
| ResetPasswordForEmail (email redirectTo : string)
| ToastError (msg : string)
| ToastSuccess (msg : string)
| Navigate (path : string).

(** [error] is the answer of the sign-in. *)
Definition handleLogin (error : option string) (st : State)
  : State * list Effect :=
  let st := setLoading true st in
  let signIn := SignIn (email st) (password st) in
  match error with
  | Some message => (setLoading false st, [signIn; ToastError message])
  | None =>
      (setLoading false st,
       [signIn; ToastSuccess "Logged in successfully!"; Navigate "/dashboard"])
  end.

(** [origin] is [window.location.origin], [error] the answer of the
    request. *)
Definition handleForgotPassword (origin : string) (error : option string)
    (st : State) : list Effect :=
  if String.eqb (email st) "" then
    [ToastError "Please enter your email first"]
  else
    let request :=
      ResetPasswordForEmail (email st) (origin ++ "/reset-password")%string in
    match error with
    | Some message => [request; ToastError message]
    | None => [request; ToastSuccess "Password reset email sent!"]
    end.

Definition navigations (effs : list Effect) : list string :=
  flat_map (fun e => match e with Navigate p => [p] | _ => [] end) effs.

End Login.

(** [src/pages/ResetPassword.tsx] *)
Module ResetPassword.

Record State := {
  password : string;
  loading : bool
}.

Inductive Effect :=
| UpdateUser (password : string)
| ToastError (msg : string)
| ToastSuccess (msg : string)
| Navigate (path : string).

(** The effect run when the page mounts: [hash] is
    [window.location.hash]. *)
Definition checkLink (hash : string) : list Effect :=
  if negb (Js.includes hash "type=recovery") then
    [ToastError "Invalid reset link"; Navigate "/login"]
  else [].

Definition handleReset (error : option string) (st : State)
  : State * list Effect :=
  let update := UpdateUser (password st) in
  match error with
  | Some message =>
      ({| password := password st; loading := false |},
       [update; ToastError message])
  | None =>
      ({| password := password st; loading := false |},
       [update; ToastSuccess "Password updated!"; Navigate "/dashboard"])
  end.

Definition navigations (effs : list Effect) : list string :=
  flat_map (fun e => match e with Navigate p => [p] | _ => [] end) effs.

End ResetPassword.

(** [src/pages/Faculty.tsx]: adding a faculty member. *)
Module AddFaculty.

Record State := {
  newFacultyName : string;
  newFacultyEmail : string;
  newFacultyPassword : string;
  addDialogOpen : bool
}.

Inductive Effect :=
| ToastInfo (msg : string)
| SignUp (email password : string)
| ToastError (msg : string)
| ToastSuccess (msg : string).

Record Replies := {
  signUpUser : option string;
  signUpError : option string
}.

Definition newline : string := String (ascii_of_nat 10) EmptyString.

Definition handleAddFaculty (user : option User.t) (r : Replies) (st : State)
  : State * list Effect :=
  match user with
  | None => (st, [])
  | Some _ =>
      let info :=
        ToastInfo
          ("Faculty credentials:" ++ newline
           ++ "Email: " ++ newFacultyEmail st ++ newline
           ++ "Password: " ++ newFacultyPassword st ++ newline ++ newline
           ++ "Share these with the faculty member to login.")%string in
      let signUp := SignUp (newFacultyEmail st) (newFacultyPassword st) in
      match signUpError r with
      | Some message => (st, [info; signUp; ToastError message])
      | None =>
          match signUpUser r with
          | Some _ =>
              ({| newFacultyName := ""; newFacultyEmail := "";
                  newFacultyPassword := ""; addDialogOpen := false |},
               [info; signUp;
                ToastSuccess
                  "Faculty account created. They need to verify their email."])
          | None => (st, [info; signUp])
          end
      end
  end.

(** The form as [handleAddFaculty] leaves it after a success. *)
Definition cleared : State :=
  {| newFacultyName := ""; newFacultyEmail := ""; newFacultyPassword := "";
     addDialogOpen := false |}.

End AddFaculty.

(** [src/App.tsx]: the routes. *)
Module App.

Inductive Page :=
| ToLogin            (* <Navigate to="/login" replace /> *)
| LoginPage
| RegisterPage
| JoinFacultyPage
| ResetPasswordPage
| DashboardPage
| StudentsPage
| FacultyPage
| AttendancePage
| LiveAttendancePage.

Definition routes : list (string * Page) :=
  [ ("/", ToLogin);
    ("/login", LoginPage);
    ("/register", RegisterPage);
    ("/join", JoinFacultyPage);
    ("/reset-password", ResetPasswordPage);
    ("/dashboard", DashboardPage);
    ("/students", StudentsPage);
    ("/faculty", FacultyPage);
    ("/attendance", AttendancePage);
    ("/live-attendance", LiveAttendancePage) ].

(** The page of the route whose path is exactly [pathname]; [None] leaves
    the location to the other ways a route may match, and in the end to
    the catch-all route of the not-found page. *)
Definition declared (pathname : string) : option Page :=
  option_map snd (find (fun e => String.eqb (fst e) pathname) routes).

Definition served (pathname : string) : bool :=
  match declared pathname with Some _ => true | None => false end.

End App.

(* ================================================================= *)
(** ** The save, step by step

    [saveAttendance] awaits the answer of the insert.  Here the page is
    followed across that wait: the handler is cut at its [await], and other
    events may come in between. *)

Module InFlight.

(** The hooks, and the period of the save whose insert awaits its answer,
    if there is one (the handler keeps it for the toast). *)
Record Page := {
  hooks : State;
  awaiting : option Js.Number
}.

Definition start : Page := {| hooks := init; awaiting := None |}.

Inductive Step :=
| Occurs (ev : Event)
    (* an event of the page; a click on Save only starts the save, the
       answer the event carries is not read *)
| InsertSettled (error : option string).

(** [saveAttendance] up to the [await]. *)
Definition saveAttendance_begin (user : option User.t) (now : Js.Date)
    (p : Page) : Page * list Effect :=
  match user with
  | None => (p, [])
  | Some u =>
      let st := setSaving true (hooks p) in
      let period := Js.parseInt (selectedPeriod st) in
      if Js.number_eqb period (Js.Num 8) && period8Free st then
        ({| hooks := setSaving false st; awaiting := awaiting p |},
         [ToastInfo "Period 8 is marked as free. No attendance recorded."])
      else
        let today := Js.split_first "T" (Js.toISOString now) in
        let records := map (record_of today period u) (attendance st) in
        ({| hooks := st; awaiting := Some period |},
         [Insert "attendance_records" records])
  end.

(** [saveAttendance] from the answer of the insert on. *)
Definition saveAttendance_settle (error : option string) (p : Page)
  : Page * list Effect :=
  match awaiting p with
  | None => (p, [])                    (* no insert awaits an answer *)
  | Some period =>
      let report :=
        match error with
        | Some message =>
            if Js.includes message "duplicate"
            then ToastError "Attendance already recorded for this period today"
            else ToastError message
        | None =>
            ToastSuccess
              ("Attendance saved for Period " ++ Js.number_to_string period ++ "!")%string
        end in
      ({| hooks := setSaving false (hooks p); awaiting := None |}, [report])
  end.

Definition step (s : Step) (p : Page) : Page * list Effect :=
  match s with
  | Occurs (ClickSave user now _) =>
      (* the button is disabled while a save is under way *)
      if saving (hooks p) then (p, []) else saveAttendance_begin user now p
  | Occurs ev =>
      ({| hooks := fst (handle ev (hooks p)); awaiting := awaiting p |},
       snd (handle ev (hooks p)))
  | InsertSettled error => saveAttendance_settle error p
  end.

Fixpoint run (steps : list Step) (p : Page) : Page * list Effect :=
  match steps with
  | [] => (p, [])
  | s :: rest =>
      let '(p1, out1) := step s p in
      let '(p2, out2) := run rest p1 in
      (p2, out1 ++ out2)
  end.

(** An event with the answer to its save, if it is one, coming at once. *)
Definition at_once (ev : Event) : list Step :=
  match ev with
  | ClickSave _ _ error => [Occurs ev; InsertSettled error]
  | _ => [Occurs ev]
  end.

(** The toasts that report the answer of an insert. *)
Definition is_report (e : Effect) : bool :=
  match e with ToastError _ | ToastSuccess _ => true | _ => false end.

(** The number of inserts that await their answer. *)
Definition in_flight (p : Page) : nat :=
  match awaiting p with Some _ => 1 | None => 0 end.

Definition is_awaiting (p : Page) : bool :=
  match awaiting p with Some _ => true | None => false end.

End InFlight.

(* ================================================================= *)
(** ** Basic facts about the handlers and the machine *)

Lemma run_app : forall evs1 evs2 st,
  run (evs1 ++ evs2) st =
  (fst (run evs2 (fst (run evs1 st))),
   snd (run evs1 st) ++ snd (run evs2 (fst (run evs1 st)))).
Proof.
  induction evs1 as [|ev evs1 IH]; intros evs2 st; simpl.
  - destruct (run evs2 st); reflexivity.
  - destruct (handle ev st) as [st1 out1].
    rewrite IH.
    destruct (run evs1 st1) as [st2 out2]; simpl.
    rewrite app_assoc. reflexivity.
Qed.

Lemma run_cons : forall ev evs st,
  run (ev :: evs) st =
  (fst (run evs (fst (handle ev st))),
   snd (handle ev st) ++ snd (run evs (fst (handle ev st)))).
Proof.
  intros ev evs st; simpl.
  destruct (handle ev st) as [st1 out1]; simpl.
  destruct (run evs st1); reflexivity.
Qed.

Example parseInt_samples :
  map Js.parseInt ["1"; "8"; " -12px"; "0x1F"; "abc"; ""; "+7"; "08"]
  = [Js.Num 1; Js.Num 8; Js.Num (-12); Js.Num 31; Js.NaN; Js.NaN; Js.Num 7; Js.Num 8].
Proof. reflexivity. Qed.

Example toISOString_sample :
  Js.toISOString Sample.now = "2024-05-01T09:55:07.042Z" /\
  Js.split_first "T" (Js.toISOString Sample.now) = "2024-05-01".
Proof. split; reflexivity. Qed.

Example includes_samples :
  Js.includes Sample.duplicate_message "duplicate" = true /\
  Js.includes "permission denied" "duplicate" = false.
Proof. split; reflexivity. Qed.

Example period_options_samples :
  period_options init = ["1"; "2"; "3"; "4"; "5"; "6"; "7"; "8"] /\
  period_options (setPeriod8Free true init) = ["1"; "2"; "3"; "4"; "5"; "6"; "7"].
Proof. split; reflexivity. Qed.

(** A session of the page: two students, one marked present, saved for
    period 3. *)
Example session_sample :
  snd (run [StudentsFetched (Some [Sample.alice; Sample.bob]);
            ModelsSettled ModelsFailed;
            SelectPeriod "3";
            ClickStatus "s1" present;
            ClickSave (Some Sample.teacher) Sample.now None] init)
  = [ConsoleLog "Face-api models not available, using manual mode";
     Insert "attendance_records"
       [[("student_id", Js.VString "s1"); ("date", Js.VString "2024-05-01");
         ("period", Js.VNumber (Js.Num 3)); ("status", Js.VString "present");
         ("verified_by", Js.VString "u1")];
        [("student_id", Js.VString "s2"); ("date", Js.VString "2024-05-01");
         ("period", Js.VNumber (Js.Num 3)); ("status", Js.VString "absent");
         ("verified_by", Js.VString "u1")]];
     ToastSuccess "Attendance saved for Period 3!"].
Proof. reflexivity. Qed.

(** A property of states kept by every enabled event holds all along. *)
Lemma run_preserves (P : State -> Prop) (ok : Event -> bool) :
  (forall ev st, ok ev = true -> P st -> P (fst (handle ev st))) ->
  forall evs st, forallb ok evs = true -> P st -> P (fst (run evs st)).
Proof.
  intros Hstep; induction evs as [|ev evs IH]; intros st Hok HP.
  - exact HP.
  - simpl in Hok; apply andb_true_iff in Hok as [Hev Hrest].
    rewrite run_cons; simpl.
    apply IH; [exact Hrest | apply Hstep; assumption].
Qed.

Lemma forallb_true_any {A} (l : list A) : forallb (fun _ => true) l = true.
Proof. induction l; simpl; auto. Qed.

Lemma save_attendance_kept : forall user now error st,
  attendance (fst (saveAttendance user now error st)) = attendance st.
Proof.
  intros [u|] now error st; unfold saveAttendance; simpl; [|reflexivity].
  destruct (_ && _); reflexivity.
Qed.

Lemma save_students_kept : forall user now error st,
  students (fst (saveAttendance user now error st)) = students st.
Proof.
  intros [u|] now error st; unfold saveAttendance; simpl; [|reflexivity].
  destruct (_ && _); reflexivity.
Qed.

(** What a save hands to the database: nothing, or the roll in memory
    turned into records. *)
Lemma save_inserted : forall user now error st,
  inserted (snd (saveAttendance user now error st)) = [] \/
  exists u, user = Some u /\
    inserted (snd (saveAttendance user now error st)) =
    [map (record_of (Js.split_first "T" (Js.toISOString now))
                    (Js.parseInt (selectedPeriod st)) u)
         (attendance st)].
Proof.
  intros [u|] now error st; unfold saveAttendance; simpl; [|left; reflexivity].
  destruct (_ && _); [left; reflexivity|].
  right; exists u; split; [reflexivity|].
  destruct error as [message|]; [destruct (Js.includes message _)|]; reflexivity.
Qed.

(** A save by a signed-in user, unless period 8 is free, hands over exactly
    one roll: the roll in memory turned into records. *)
Lemma save_inserts_roll : forall u now error st,
  free_period8 st = false ->
  inserted (snd (saveAttendance (Some u) now error st)) =
  [map (record_of (Js.split_first "T" (Js.toISOString now))
                  (Js.parseInt (selectedPeriod st)) u)
       (attendance st)].
Proof.
  intros u now error st Hfree; unfold free_period8 in Hfree.
  unfold saveAttendance; simpl; rewrite Hfree.
  destruct error as [message|]; [destruct (Js.includes message _)|]; reflexivity.
Qed.

Lemma handle_roll_complete : forall ev st,
  roll_complete st -> roll_complete (fst (handle ev st)).
Proof.
  unfold roll_complete; intros ev st H; destruct ev; simpl.
  - destruct data as [data|]; simpl; [|exact H].
    rewrite map_map; reflexivity.
  - destruct outcome; exact H.
  - exact H.
  - destruct (existsb _ _); exact H.
  - exact H.
  - rewrite map_map, <- H. apply map_ext; intros a.
    destruct (String.eqb _ _); reflexivity.
  - rewrite map_map, <- H. apply map_ext; intros a; reflexivity.
  - destruct (saving st); [exact H|].
    rewrite save_attendance_kept, save_students_kept; exact H.
Qed.

Lemma run_roll_complete : forall evs st,
  roll_complete st -> roll_complete (fst (run evs st)).
Proof.
  intros evs st H.
  apply (run_preserves roll_complete (fun _ => true)); auto using forallb_true_any.
  intros; apply handle_roll_complete; assumption.
Qed.

Lemma run_students : forall evs st,
  students (fst (run evs st)) = fetched evs (students st).
Proof.
  induction evs as [|ev evs IH]; intros st; [reflexivity|].
  rewrite run_cons; simpl fst; rewrite IH.
  destruct ev; simpl; try reflexivity.
  - destruct data; reflexivity.
  - destruct outcome; reflexivity.
  - destruct (existsb _ _); reflexivity.
  - destruct (saving st); [reflexivity|].
    rewrite save_students_kept; reflexivity.
Qed.

(* ================================================================= *)
(** ** Roll completeness *)

(** C1.  Whatever the events of a session (the query and the model loading
    settling, in failure too, status buttons, mark-all-present, switches and
    earlier saves), the roll in memory has, in order, one entry per student
    of the list the students query brought; a save by a signed-in user,
    unless period 8 is free, hands exactly one roll to the database; and a
    roll handed over has, in order, one record per student of that list,
    under that student's id: no student is dropped. *)
Theorem roll_one_entry_per_known_student : forall evs user now error,
  let st := fst (run evs init) in
  students st = fetched evs [] /\
  map studentId (attendance st) = map Student.id (fetched evs []) /\
  Forall (fun rows =>
            map (Js.get "student_id") rows =
            map (fun s => Some (Js.VString (Student.id s))) (fetched evs []))
         (inserted (snd (saveAttendance user now error st))) /\
  (forall u, user = Some u -> free_period8 st = false ->
     exists rows,
       inserted (snd (saveAttendance user now error st)) = [rows] /\
       map (Js.get "student_id") rows =
       map (fun s => Some (Js.VString (Student.id s))) (fetched evs [])).
Proof.
  intros evs user now error st.
  assert (Hst : students st = fetched evs []) by apply (run_students evs init).
  assert (Hrc : roll_complete st) by (apply run_roll_complete; reflexivity).
  unfold roll_complete in Hrc; rewrite Hst in Hrc.
  assert (Hids : forall today period u,
            map (Js.get "student_id")
                (map (record_of today period u) (attendance st))
            = map (fun s => Some (Js.VString (Student.id s))) (fetched evs [])).
  { intros today period u; rewrite map_map; simpl.
    rewrite <- (map_map Student.id (fun i => Some (Js.VString i))), <- Hrc.
    rewrite map_map; reflexivity. }
  split; [exact Hst|]. split; [exact Hrc|]. split.
  - destruct (save_inserted user now error st) as [-> | (u & _ & ->)];
      constructor; [apply Hids | constructor].
  - intros u -> Hfree; eexists; split;
      [apply save_inserts_roll; exact Hfree | apply Hids].
Qed.

Lemma roll_one_entry_per_known_student_witness :
  let evs := [StudentsFetched (Some [Sample.alice; Sample.bob]);
              ModelsSettled ModelsFailed;
              ClickStatus "s1" present] in
  let st := fst (run evs init) in
  free_period8 st = false /\
  exists rows,
    inserted (snd (saveAttendance (Some Sample.teacher) Sample.now None st))
    = [rows] /\
    map (Js.get "student_id") rows
    = [Some (Js.VString "s1"); Some (Js.VString "s2")].
Proof.
  intros evs st; split; [reflexivity|].
  exact (proj2 (proj2 (proj2
           (roll_one_entry_per_known_student evs (Some Sample.teacher)
              Sample.now None)))
           Sample.teacher eq_refl eq_refl).
Defined.

(* ================================================================= *)
(** ** Statuses: the default and the override *)

Lemma get_student_id : forall today period u a,
  Js.get "student_id" (record_of today period u a) = Some (Js.VString (studentId a)).
Proof. reflexivity. Qed.

Lemma get_status : forall today period u a,
  Js.get "status" (record_of today period u a) =
  Some (Js.VString (status_string (status a))).
Proof. reflexivity. Qed.

Lemma save_rows_have_status : forall sid v st user now error,
  has_status sid v st ->
  Forall (rows_have_status sid v) (inserted (snd (saveAttendance user now error st))).
Proof.
  intros sid v st user now error H.
  destruct (save_inserted user now error st) as [-> | (u & _ & ->)];
    constructor; [|constructor].
  intros r Hr Hid.
  apply in_map_iff in Hr as (a & <- & Ha).
  rewrite get_student_id in Hid; injection Hid as Hid.
  rewrite get_status, (H a Ha Hid); reflexivity.
Qed.

Lemma updateStatus_other : forall sid v i s st,
  String.eqb i sid = false ->
  has_status sid v st -> has_status sid v (updateStatus i s st).
Proof.
  intros sid v i s st Hne H a Ha Hid; simpl in Ha.
  apply in_map_iff in Ha as (b & <- & Hb).
  destruct (String.eqb (studentId b) i) eqn:E.
  - apply String.eqb_eq in E; simpl in Hid.
    rewrite E in Hid; subst sid.
    rewrite String.eqb_refl in Hne; discriminate.
  - apply H; assumption.
Qed.

Lemma updateStatus_same : forall sid v st, has_status sid v (updateStatus sid v st).
Proof.
  intros sid v st a Ha Hid; simpl in Ha.
  apply in_map_iff in Ha as (b & <- & Hb).
  destruct (String.eqb (studentId b) sid) eqn:E; [reflexivity|].
  apply String.eqb_neq in E; contradiction.
Qed.

Lemma fetch_absent : forall sid data st,
  has_status sid absent st -> has_status sid absent (fetchStudents data st).
Proof.
  intros sid [data|] st H; [|exact H].
  intros a Ha _; simpl in Ha.
  apply in_map_iff in Ha as (s & <- & _); reflexivity.
Qed.

(** Events that leave the status of [sid] alone keep it. *)
Lemma handle_has_status : forall sid v ev st,
  negb (touches sid ev) = true ->
  has_status sid v st -> has_status sid v (fst (handle ev st)).
Proof.
  intros sid v ev st Hev H; apply negb_true_iff in Hev.
  destruct ev; simpl in *; try exact H; try discriminate.
  - destruct data; [discriminate | exact H].
  - destruct outcome; exact H.
  - destruct (existsb _ _); exact H.
  - apply updateStatus_other; assumption.
  - destruct (saving st); [exact H|].
    unfold has_status; rewrite save_attendance_kept; exact H.
Qed.

Lemma handle_absent : forall sid ev st,
  negb (sets_status sid ev) = true ->
  has_status sid absent st -> has_status sid absent (fst (handle ev st)).
Proof.
  intros sid ev st Hev H.
  destruct ev as [data| | | | | | |];
    try (apply handle_has_status; assumption).
  apply fetch_absent; exact H.
Qed.

(** A student of the list the query brought has an entry in the roll. *)
Lemma known_student_has_entry : forall evs sid,
  In sid (map Student.id (fetched evs [])) ->
  In sid (map studentId (attendance (fst (run evs init)))).
Proof.
  intros evs sid Hin.
  pose proof (run_roll_complete evs init eq_refl) as Hrc.
  unfold roll_complete in Hrc.
  rewrite Hrc, (run_students evs init); exact Hin.
Qed.

Lemma has_status_marked : forall sid v st,
  has_status sid v st ->
  In sid (map studentId (attendance st)) ->
  marked sid v st.
Proof.
  intros sid v st H Hin.
  apply in_map_iff in Hin as (a & Hid & Ha).
  exists a; split; [exact Ha|]. split; [exact Hid | apply H; assumption].
Qed.

(** A save by a signed-in user, unless period 8 is free, hands over one
    roll, with a record for every entry of the roll in memory. *)
Lemma save_marks : forall sid v u now error st,
  marked sid v st ->
  free_period8 st = false ->
  exists rows,
    inserted (snd (saveAttendance (Some u) now error st)) = [rows] /\
    rows_mark sid v rows.
Proof.
  intros sid v u now error st (a & Ha & Hid & Hv) Hfree.
  eexists; split; [apply save_inserts_roll; exact Hfree|].
  exists (record_of (Js.split_first "T" (Js.toISOString now))
                    (Js.parseInt (selectedPeriod st)) u a).
  split; [apply in_map; exact Ha|].
  rewrite get_student_id, get_status, Hid, Hv; split; reflexivity.
Qed.

(** C2.  The roll is initialised with one entry per student, each absent;
    and in a session in which no status button of a student and no
    mark-all-present was clicked, every entry of that student in memory is
    absent and every record of that student in a roll handed to the
    database says absent.  For a student of the list the query brought
    there is such an entry, and a save by a signed-in user, unless period 8
    is free, hands over one roll with that student recorded absent. *)
Theorem untouched_student_is_absent : forall evs sid user now error,
  forallb (fun ev => negb (sets_status sid ev)) evs = true ->
  let st := fst (run evs init) in
  (forall data st0,
      map (fun a => (studentId a, status a))
          (attendance (fetchStudents (Some data) st0))
      = map (fun s => (Student.id s, absent)) data) /\
  has_status sid absent st /\
  Forall (rows_have_status sid absent)
         (inserted (snd (saveAttendance user now error st))) /\
  (In sid (map Student.id (fetched evs [])) ->
   marked sid absent st /\
   (forall u, user = Some u -> free_period8 st = false ->
      exists rows,
        inserted (snd (saveAttendance user now error st)) = [rows] /\
        rows_mark sid absent rows)).
Proof.
  intros evs sid user now error Hevs st.
  assert (H : has_status sid absent st).
  { apply (run_preserves (has_status sid absent)
             (fun ev => negb (sets_status sid ev))); try assumption.
    - intros; apply handle_absent; assumption.
    - intros a []. }
  split; [|split; [|split]].
  - intros data st0; simpl. rewrite map_map; reflexivity.
  - exact H.
  - apply save_rows_have_status; exact H.
  - intros Hknown.
    assert (Hm : marked sid absent st)
      by (apply has_status_marked;
          [exact H | apply known_student_has_entry; exact Hknown]).
    split; [exact Hm|].
    intros u -> Hfree; apply save_marks; assumption.
Qed.

Lemma untouched_student_is_absent_witness :
  let evs := [StudentsFetched (Some [Sample.alice; Sample.bob]);
              ModelsSettled ModelsFailed;
              ClickStatus "s1" present] in
  let st := fst (run evs init) in
  forallb (fun ev => negb (sets_status "s2" ev)) evs = true /\
  In "s2" (map Student.id (fetched evs [])) /\
  free_period8 st = false /\
  exists rows,
    inserted (snd (saveAttendance (Some Sample.teacher) Sample.now None st))
    = [rows] /\
    rows_mark "s2" absent rows.
Proof.
  intros evs st.
  assert (Hknown : In "s2" (map Student.id (fetched evs [])))
    by (right; left; reflexivity).
  split; [reflexivity|]. split; [exact Hknown|]. split; [reflexivity|].
  exact (proj2 (proj2 (proj2 (proj2
           (untouched_student_is_absent evs "s2" (Some Sample.teacher)
              Sample.now None eq_refl))) Hknown)
           Sample.teacher eq_refl eq_refl).
Defined.

(** A later mark-all-present is itself a status set by hand: it replaces
    the status a button set before.  Alice is set sleepy, then
    mark-all-present is clicked: the roll handed to the database says
    present. *)
Example override_then_mark_all_present :
  let evs := [StudentsFetched (Some [Sample.alice]);
              ClickStatus "s1" sleepy;
              ClickMarkAllPresent] in
  map (map (fun r => (Js.get "student_id" r, Js.get "status" r)))
      (inserted (snd (saveAttendance (Some Sample.teacher) Sample.now None
                        (fst (run evs init)))))
  = [[(Some (Js.VString "s1"), Some (Js.VString "present"))]].
Proof. reflexivity. Qed.

(** C6.  A status set by hand with a student's button, at any time before
    the save, decides that student's status in the roll in memory and in
    the roll handed to the database, whatever came before it and whatever
    the automatic path does after it: the model loading settling, the
    camera, the period select and switch, other students' buttons and
    saves leave it standing.  Only the teacher setting that student's status
    by hand again (the student's buttons, mark-all-present) or the roll
    being initialised anew replaces it.  For a student of the list the
    query brought, the roll has the entry, and a save by a signed-in user,
    unless period 8 is free, hands over one roll with that student recorded
    under the status set. *)
Theorem last_override_decides : forall evs1 sid v evs2 user now error,
  forallb (fun ev => negb (touches sid ev)) evs2 = true ->
  let evs := evs1 ++ ClickStatus sid v :: evs2 in
  let st := fst (run evs init) in
  has_status sid v st /\
  Forall (rows_have_status sid v)
         (inserted (snd (saveAttendance user now error st))) /\
  (In sid (map Student.id (fetched evs [])) ->
   marked sid v st /\
   (forall u, user = Some u -> free_period8 st = false ->
      exists rows,
        inserted (snd (saveAttendance user now error st)) = [rows] /\
        rows_mark sid v rows)).
Proof.
  intros evs1 sid v evs2 user now error Hevs evs st.
  assert (H : has_status sid v st).
  { subst st evs. rewrite run_app; cbn [fst]. rewrite run_cons; cbn [fst handle].
    apply (run_preserves (has_status sid v)
             (fun ev => negb (touches sid ev))); try assumption.
    - intros; apply handle_has_status; assumption.
    - apply updateStatus_same. }
  split; [exact H|]. split; [apply save_rows_have_status; exact H|].
  intros Hknown.
  assert (Hm : marked sid v st)
    by (apply has_status_marked;
        [exact H | apply known_student_has_entry; exact Hknown]).
  split; [exact Hm|].
  intros u -> Hfree; apply save_marks; assumption.
Qed.

Lemma last_override_decides_witness :
  let evs1 := [StudentsFetched (Some [Sample.alice; Sample.bob]);
               ClickMarkAllPresent] in
  let evs2 := [ModelsSettled ModelsLoaded; ClickCamera;
               ClickStatus "s2" absent; SelectPeriod "3"] in
  let evs := evs1 ++ ClickStatus "s1" sleepy :: evs2 in
  let st := fst (run evs init) in
  forallb (fun ev => negb (touches "s1" ev)) evs2 = true /\
  In "s1" (map Student.id (fetched evs [])) /\
  free_period8 st = false /\
  exists rows,
    inserted (snd (saveAttendance (Some Sample.teacher) Sample.now None st))
    = [rows] /\
    rows_mark "s1" sleepy rows.
Proof.
  intros evs1 evs2 evs st.
  assert (Hknown : In "s1" (map Student.id (fetched evs [])))
    by (left; reflexivity).
  split; [reflexivity|]. split; [exact Hknown|]. split; [reflexivity|].
  exact (proj2 (proj2 (proj2
           (last_override_decides evs1 "s1" sleepy evs2 (Some Sample.teacher)
              Sample.now None eq_refl)) Hknown)
           Sample.teacher eq_refl eq_refl).
Defined.

(* ================================================================= *)
(** ** Saving: the free period, a rejected commit, a second commit *)

(** C10.  When the selected period reads 8 and the period-8-is-free switch
    is on, a save hands nothing to the database and leaves every hook but
    [saving] as it was, the roll in memory included; with a signed-in user
    it ends with [saving] off and one informational toast. *)
Theorem free_period8_records_nothing : forall user now error st,
  Js.parseInt (selectedPeriod st) = Js.Num 8 ->
  period8Free st = true ->
  let result := saveAttendance user now error st in
  inserted (snd result) = [] /\
  attendance (fst result) = attendance st /\
  fst result = setSaving (saving (fst result)) st /\
  result = match user with
           | Some _ =>
               (setSaving false st,
                [ToastInfo "Period 8 is marked as free. No attendance recorded."])
           | None => (st, [])
           end.
Proof.
  intros [u|] now error st Hperiod Hfree result; subst result;
    unfold saveAttendance; simpl.
  - rewrite Hperiod, Hfree; simpl. repeat split.
  - destruct st; repeat split.
Qed.

Lemma free_period8_records_nothing_witness :
  let st := fst (run [StudentsFetched (Some [Sample.alice; Sample.bob]);
                      ClickStatus "s1" present;
                      SelectPeriod "8";
                      SwitchPeriod8Free true] init) in
  Js.parseInt (selectedPeriod st) = Js.Num 8 /\
  period8Free st = true /\
  inserted (snd (saveAttendance (Some Sample.teacher) Sample.now None st)) = [] /\
  attendance (fst (saveAttendance (Some Sample.teacher) Sample.now None st))
  = attendance st.
Proof.
  split; [reflexivity|]. split; [reflexivity|].
  pose proof (free_period8_records_nothing (Some Sample.teacher) Sample.now None
                (fst (run [StudentsFetched (Some [Sample.alice; Sample.bob]);
                           ClickStatus "s1" present;
                           SelectPeriod "8";
                           SwitchPeriod8Free true] init))
                eq_refl eq_refl) as H.
  split; apply H.
Defined.

(** C5.  When a save reaches the insert and the database rejects it with an
    error whose message contains "duplicate", the page has sent that one
    insert and nothing else to the database (no second attempt, no update of
    what is stored), reports the conflict by one error toast, and leaves the
    roll in memory, like every hook, as it was before the save. *)
Theorem duplicate_commit_reported : forall user now message st,
  Js.includes message "duplicate" = true ->
  let result := saveAttendance user now (Some message) st in
  inserted (snd result) <> [] ->
  (exists rows,
      snd result =
      [Insert "attendance_records" rows;
       ToastError "Attendance already recorded for this period today"]) /\
  attendance (fst result) = attendance st /\
  fst result = setSaving false st.
Proof.
  intros [u|] now message st Hdup result; subst result;
    unfold saveAttendance; simpl; [|intros H; contradiction].
  destruct (_ && _); simpl; [intros H; contradiction|].
  intros _; rewrite Hdup.
  split; [eexists; reflexivity | split; reflexivity].
Qed.

Lemma duplicate_commit_reported_witness :
  let st := fst (run [StudentsFetched (Some [Sample.alice; Sample.bob]);
                      ClickStatus "s1" present;
                      SelectPeriod "3"] init) in
  let result := saveAttendance (Some Sample.teacher) Sample.now
                  (Some Sample.duplicate_message) st in
  Js.includes Sample.duplicate_message "duplicate" = true /\
  inserted (snd result) <> [] /\
  attendance (fst result) = attendance st.
Proof.
  split; [reflexivity|]. split; [discriminate|].
  apply (duplicate_commit_reported (Some Sample.teacher) Sample.now
           Sample.duplicate_message
           (fst (run [StudentsFetched (Some [Sample.alice; Sample.bob]);
                      ClickStatus "s1" present;
                      SelectPeriod "3"] init))).
  - reflexivity.
  - discriminate.
Defined.

(** C4, as stated, fails: the page keeps no mark of a session being
    committed.  After a save that succeeded, a second save of the same
    session sends the roll to the database again. *)
Lemma second_save_inserts_again :
  let evs := [StudentsFetched (Some [Sample.alice; Sample.bob]);
              ClickStatus "s1" present;
              ClickSave (Some Sample.teacher) Sample.now None;
              ClickSave (Some Sample.teacher) Sample.later None] in
  exists roll, inserted (snd (run evs init)) = [roll; roll].
Proof. eexists; reflexivity. Qed.

(** C4, amended.  A second save of a session on the same UTC day, by the
    same user, computes the same roll as the first, record for record, and
    hands it to the database again whenever the first save did; neither save
    changes the roll in memory. *)
Theorem second_save_same_roll : forall u now1 now2 error1 error2 st,
  Js.split_first "T" (Js.toISOString now1) = Js.split_first "T" (Js.toISOString now2) ->
  let first := saveAttendance (Some u) now1 error1 st in
  let second := saveAttendance (Some u) now2 error2 (fst first) in
  inserted (snd second) = inserted (snd first) /\
  attendance (fst second) = attendance (fst first) /\
  attendance (fst first) = attendance st.
Proof.
  intros u now1 now2 error1 error2 st Hday first second; subst first second.
  unfold saveAttendance; simpl.
  destruct (Js.number_eqb (Js.parseInt (selectedPeriod st)) (Js.Num 8)
            && period8Free st) eqn:E; simpl; rewrite E; simpl.
  - repeat split.
  - rewrite Hday.
    destruct error1 as [m1|]; [destruct (Js.includes m1 _)|];
      (destruct error2 as [m2|]; [destruct (Js.includes m2 _)|]);
      repeat split.
Qed.

Lemma second_save_same_roll_witness :
  let st := fst (run [StudentsFetched (Some [Sample.alice; Sample.bob]);
                      ClickStatus "s2" sleepy] init) in
  let first := saveAttendance (Some Sample.teacher) Sample.now None st in
  let second := saveAttendance (Some Sample.teacher) Sample.later
                  (Some Sample.duplicate_message) (fst first) in
  Js.split_first "T" (Js.toISOString Sample.now)
  = Js.split_first "T" (Js.toISOString Sample.later) /\
  inserted (snd second) = inserted (snd first) /\
  List.length (inserted (snd second)) = 1.
Proof.
  split; [reflexivity|].
  split; [|reflexivity].
  apply (second_save_same_roll Sample.teacher Sample.now Sample.later None
           (Some Sample.duplicate_message)).
  reflexivity.
Defined.

(* ================================================================= *)
(** ** Manual mode when the recognition models do not load *)

Lemma setFaceApiLoaded_same : forall st,
  setFaceApiLoaded (faceApiLoaded st) st = st.
Proof. intros []; reflexivity. Qed.

(** The events other than the model loading neither read nor write the
    [faceApiLoaded] hook. *)
Lemma handle_ignores_models : forall b ev st,
  negb (is_load ev) = true ->
  handle ev (setFaceApiLoaded b st) =
  (setFaceApiLoaded b (fst (handle ev st)), snd (handle ev st)).
Proof.
  intros b ev st Hev; destruct ev; simpl in *; try reflexivity; try discriminate.
  - destruct data; reflexivity.
  - unfold period_options, maxPeriods; simpl.
    destruct (existsb _ _); reflexivity.
  - destruct (saving st); [reflexivity|].
    destruct user as [u|]; [|reflexivity].
    unfold saveAttendance; simpl.
    destruct (_ && _); reflexivity.
Qed.

Lemma run_ignores_models : forall b evs st,
  forallb (fun ev => negb (is_load ev)) evs = true ->
  run evs (setFaceApiLoaded b st) =
  (setFaceApiLoaded b (fst (run evs st)), snd (run evs st)).
Proof.
  intros b; induction evs as [|ev evs IH]; intros st Hevs; [reflexivity|].
  simpl in Hevs; apply andb_true_iff in Hevs as [Hev Hrest].
  rewrite !run_cons, handle_ignores_models by exact Hev.
  cbn [fst snd]; rewrite IH by exact Hrest; reflexivity.
Qed.

Lemma handle_no_log : forall ev st,
  negb (is_load ev) = true -> filter is_log (snd (handle ev st)) = [].
Proof.
  intros ev st Hev; destruct ev; simpl in *; try reflexivity; try discriminate.
  - destruct (existsb _ _); reflexivity.
  - destruct (saving st); [reflexivity|].
    destruct user as [u|]; [|reflexivity].
    unfold saveAttendance; simpl.
    destruct (_ && _); [reflexivity|].
    destruct error as [m|]; [destruct (Js.includes m _)|]; reflexivity.
Qed.

Lemma run_no_log : forall evs st,
  forallb (fun ev => negb (is_load ev)) evs = true ->
  filter is_log (snd (run evs st)) = [].
Proof.
  induction evs as [|ev evs IH]; intros st Hevs; [reflexivity|].
  simpl in Hevs; apply andb_true_iff in Hevs as [Hev Hrest].
  rewrite run_cons; cbn [snd].
  rewrite filter_app, handle_no_log, IH by assumption; reflexivity.
Qed.

Lemma run_keeps_models_flag : forall evs st,
  forallb (fun ev => negb (is_load ev)) evs = true ->
  faceApiLoaded (fst (run evs st)) = faceApiLoaded st.
Proof.
  intros evs st Hevs.
  pose proof (run_ignores_models (faceApiLoaded st) evs st Hevs) as H.
  rewrite setFaceApiLoaded_same in H; rewrite H; reflexivity.
Qed.

(** C7.  In a session whose model loading fails (the import or one of the
    three models), the failure is logged once, by the loading itself: no
    other event of the session logs anything.  [faceApiLoaded] stays off,
    and everything else goes as in the session where the models loaded: the
    same hooks but that flag, hence the same roll in memory, and the same
    inserts and toasts. *)
Theorem models_failure_reported_once : forall pre outcome evs,
  failed outcome = true ->
  forallb (fun ev => negb (is_load ev)) pre = true ->
  forallb (fun ev => negb (is_load ev)) evs = true ->
  let degraded := run (pre ++ ModelsSettled outcome :: evs) init in
  let automatic := run (pre ++ ModelsSettled ModelsLoaded :: evs) init in
  List.length (filter is_log (snd degraded)) = 1 /\
  faceApiLoaded (fst degraded) = false /\
  setFaceApiLoaded true (fst degraded) = fst automatic /\
  attendance (fst degraded) = attendance (fst automatic) /\
  filter (fun e => negb (is_log e)) (snd degraded) = snd automatic.
Proof.
  intros pre outcome evs Hfail Hpre Hevs degraded automatic.
  subst degraded automatic.
  rewrite !run_app, !run_cons; cbn [fst snd].
  set (st := fst (run pre init)).
  assert (Hflag : faceApiLoaded st = false)
    by (apply (run_keeps_models_flag pre init Hpre)).
  assert (Hsilent : forall l, filter is_log l = [] ->
                              filter (fun e => negb (is_log e)) l = l).
  { induction l as [|e l IH]; simpl; [reflexivity|].
    destruct (is_log e); simpl; [discriminate|].
    intros H; rewrite IH by exact H; reflexivity. }
  assert (Hdeg : exists msg,
             handle (ModelsSettled outcome) st = (st, [ConsoleLog msg]))
    by (destruct outcome; [eexists; reflexivity .. | discriminate]).
  destruct Hdeg as (msg & ->).
  change (handle (ModelsSettled ModelsLoaded) st)
    with (setFaceApiLoaded true st, @nil Effect).
  cbn [fst snd]; rewrite run_ignores_models by exact Hevs; cbn [fst snd].
  rewrite !filter_app, !run_no_log by assumption.
  rewrite run_keeps_models_flag by exact Hevs.
  repeat split; try assumption.
  simpl. rewrite !Hsilent by (apply run_no_log; assumption).
  reflexivity.
Qed.

Lemma models_failure_reported_once_witness :
  let pre := [StudentsFetched (Some [Sample.alice; Sample.bob])] in
  let evs := [ClickCamera; ClickStatus "s1" present; ClickStatus "s2" sleepy;
              ClickSave (Some Sample.teacher) Sample.now None] in
  let degraded := run (pre ++ ModelsSettled ModelsFailed :: evs) init in
  failed ModelsFailed = true /\
  List.length (filter is_log (snd degraded)) = 1 /\
  map status (attendance (fst degraded)) = [present; sleepy] /\
  List.length (inserted (snd degraded)) = 1.
Proof.
  split; [reflexivity|].
  split; [|split; reflexivity].
  apply (models_failure_reported_once
           [StudentsFetched (Some [Sample.alice; Sample.bob])]
           ModelsFailed
           [ClickCamera; ClickStatus "s1" present; ClickStatus "s2" sleepy;
            ClickSave (Some Sample.teacher) Sample.now None]);
    reflexivity.
Defined.

(* ================================================================= *)
(** ** The records of a committed roll *)

Lemma digit_char_is_digit : forall d, is_digit (Js.digit_char d) = true.
Proof.
  intros [|p]; [reflexivity|].
  do 4 (try (destruct p as [p|p|]; try reflexivity)).
Qed.

Lemma digit_char_not_T : forall d, Ascii.eqb (Js.digit_char d) "T" = false.
Proof.
  intros [|p]; [reflexivity|].
  do 4 (try (destruct p as [p|p|]; try reflexivity)).
Qed.

(** Up to year 9999 the date of a save is the first ten characters of the
    ISO timestamp, in the form [YYYY-MM-DD]. *)
Lemma today_is_iso_date : forall now,
  (Js.utcFullYear now <= 9999)%N ->
  is_iso_date (Js.split_first "T" (Js.toISOString now)) = true.
Proof.
  intros now Hyear; unfold Js.toISOString.
  apply N.leb_le in Hyear; rewrite Hyear.
  cbn [Js.fixed_digits append Js.split_first].
  rewrite !digit_char_not_T.
  cbn [Js.split_first Ascii.eqb Bool.eqb].
  unfold is_iso_date; cbn [list_ascii_of_string forallb].
  rewrite !digit_char_is_digit; reflexivity.
Qed.

Lemma handle_period_offered : forall ev st,
  In (selectedPeriod st) all_periods ->
  In (selectedPeriod (fst (handle ev st))) all_periods.
Proof.
  intros ev st H; destruct ev; simpl; try exact H.
  - destruct data; exact H.
  - destruct outcome; exact H.
  - destruct (existsb _ _) eqn:E; [|exact H].
    apply existsb_exists in E as (x & Hx & Heq).
    apply String.eqb_eq in Heq; subst x; simpl.
    unfold period_options, maxPeriods in Hx.
    destruct (period8Free st); simpl in Hx; simpl; tauto.
  - destruct (saving st); [exact H|].
    destruct user as [u|]; [|exact H].
    unfold saveAttendance; simpl.
    destruct (_ && _); exact H.
Qed.

Lemma run_period_offered : forall evs,
  In (selectedPeriod (fst (run evs init))) all_periods.
Proof.
  intros evs.
  apply (run_preserves (fun st => In (selectedPeriod st) all_periods)
           (fun _ => true)); auto using forallb_true_any.
  - intros; apply handle_period_offered; assumption.
  - simpl; tauto.
Qed.

Lemma parse_offered_period : forall v,
  In v all_periods -> exists p, Js.parseInt v = Js.Num p /\ (1 <= p <= 8)%Z.
Proof.
  intros v H; simpl in H.
  destruct H as [<-|[<-|[<-|[<-|[<-|[<-|[<-|[<-|[]]]]]]]]];
    [exists 1%Z | exists 2%Z | exists 3%Z | exists 4%Z
    | exists 5%Z | exists 6%Z | exists 7%Z | exists 8%Z];
    (split; [reflexivity | lia]).
Qed.

(** C9, as stated, fails: the records of a committed roll carry no
    [roll_number]; their fields are [student_id], [date], [period],
    [status] and [verified_by]. *)
Lemma committed_record_has_no_roll_number :
  let st := fst (run [StudentsFetched (Some [Sample.alice])] init) in
  map (map (fun r => (Js.keys r, Js.get "roll_number" r)))
      (inserted (snd (saveAttendance (Some Sample.teacher) Sample.now None st)))
  = [[(["student_id"; "date"; "period"; "status"; "verified_by"], None)]].
Proof. reflexivity. Qed.

(** C9, amended.  Up to year 9999, every record of a roll handed to the
    database in a session has exactly the fields [student_id], [date],
    [period], [status] and [verified_by], in that order: the date is in the
    form [YYYY-MM-DD] and is the UTC day of the save, the period is an
    integer from 1 to 8 and is the period selected, the status is one of
    present, sleepy and absent, [verified_by] is the id of the user who
    saves, and date and period are the same in all records of the roll.
    A save by a signed-in user, unless period 8 is free, hands over exactly
    one such roll, with one record per student of the list the query
    brought, under the student's id and with the status the roll in memory
    has. *)
Theorem committed_records_well_formed : forall evs user now error,
  (Js.utcFullYear now <= 9999)%N ->
  let st := fst (run evs init) in
  Forall (fun rows =>
            exists date period u,
              user = Some u /\
              date = Js.split_first "T" (Js.toISOString now) /\
              Js.parseInt (selectedPeriod st) = Js.Num period /\
              is_iso_date date = true /\
              (1 <= period <= 8)%Z /\
              Forall (committed_record date period (User.id u)) rows)
         (inserted (snd (saveAttendance user now error st))) /\
  (forall u, user = Some u -> free_period8 st = false ->
     exists rows,
       inserted (snd (saveAttendance user now error st)) = [rows] /\
       map (Js.get "student_id") rows
       = map (fun s => Some (Js.VString (Student.id s))) (fetched evs []) /\
       map (Js.get "status") rows
       = map (fun a => Some (Js.VString (status_string (status a))))
             (attendance st)).
Proof.
  intros evs user now error Hyear st.
  destruct (parse_offered_period _ (run_period_offered evs)) as (p & Hp & Hrange).
  fold st in Hp.
  assert (Hrows : forall u,
            Forall (committed_record (Js.split_first "T" (Js.toISOString now))
                                     p (User.id u))
                   (map (record_of (Js.split_first "T" (Js.toISOString now))
                                   (Js.parseInt (selectedPeriod st)) u)
                        (attendance st))).
  { intros u; rewrite Hp; apply Forall_forall; intros r Hr.
    apply in_map_iff in Hr as (a & <- & _).
    unfold committed_record, record_of; simpl.
    repeat split; try (eexists; reflexivity).
    exists (status_string (status a)); split; [reflexivity|].
    destruct (status a); simpl; tauto. }
  split.
  - destruct (save_inserted user now error st) as [-> | (u & Hu & ->)];
      constructor; [|constructor].
    exists (Js.split_first "T" (Js.toISOString now)), p, u.
    split; [exact Hu|]. split; [reflexivity|]. split; [exact Hp|].
    split; [apply today_is_iso_date; exact Hyear|].
    split; [exact Hrange | apply Hrows].
  - intros u -> Hfree; eexists; split;
      [apply save_inserts_roll; exact Hfree|].
    split.
    + pose proof (run_roll_complete evs init eq_refl) as Hrc.
      unfold roll_complete in Hrc; rewrite (run_students evs init) in Hrc.
      change (students init) with (@nil Student.t) in Hrc.
      rewrite map_map; simpl.
      rewrite <- (map_map Student.id (fun i => Some (Js.VString i))), <- Hrc.
      rewrite map_map; reflexivity.
    + rewrite map_map; reflexivity.
Qed.

Lemma committed_records_well_formed_witness :
  let evs := [StudentsFetched (Some [Sample.alice; Sample.bob]);
              SelectPeriod "3"; ClickStatus "s1" present] in
  let st := fst (run evs init) in
  (Js.utcFullYear Sample.now <= 9999)%N /\
  free_period8 st = false /\
  map (Js.get "verified_by")
      (List.concat (inserted (snd (saveAttendance (Some Sample.teacher)
                                     Sample.now None st))))
  = [Some (Js.VString "u1"); Some (Js.VString "u1")] /\
  exists rows,
    inserted (snd (saveAttendance (Some Sample.teacher) Sample.now None st))
    = [rows] /\
    map (Js.get "student_id") rows
    = [Some (Js.VString "s1"); Some (Js.VString "s2")] /\
    map (Js.get "status") rows
    = [Some (Js.VString "present"); Some (Js.VString "absent")].
Proof.
  intros evs st.
  assert (Hyear : (Js.utcFullYear Sample.now <= 9999)%N)
    by (vm_compute; discriminate).
  split; [exact Hyear|]. split; [reflexivity|]. split; [reflexivity|].
  exact (proj2 (committed_records_well_formed evs (Some Sample.teacher)
                  Sample.now None Hyear)
           Sample.teacher eq_refl eq_refl).
Defined.

(** The scenario of the specification: A attentive in eight of ten frames,
    B never seen. *)
Example eight_attentive_frames :
  Aggregator.finalize Aggregator.default_majority
    (Aggregator.aggregate
       (map (fun n => {| Aggregator.identity := if Nat.ltb n 8 then Some "A" else None;
                         Aggregator.label := Aggregator.attentive;
                         Aggregator.timestamp := n |})
            (seq 0 10))
       (Aggregator.open_session ["A"; "B"]))
  = [("A", present); ("B", absent)].
Proof. reflexivity. Qed.

Lemma drowsy_fraction_is_quotient : forall t,
  0 < Aggregator.count_seen t ->
  (Aggregator.drowsy_fraction t ==
   inject_Z (Z.of_nat (Aggregator.count_drowsy t))
   / inject_Z (Z.of_nat (Aggregator.count_seen t)))%Q.
Proof.
  intros t Hseen; unfold Aggregator.drowsy_fraction.
  rewrite Qmake_Qdiv.
  replace (Z.pos (Pos.of_nat (Aggregator.count_seen t)))
    with (Z.of_nat (Aggregator.count_seen t)); [reflexivity|].
  destruct (Aggregator.count_seen t) as [|n]; [lia|].
  rewrite <- Pos.of_nat_succ; reflexivity.
Qed.

(** C3.  At period close an identity seen at least once is sleepy when
    count_drowsy / count_seen exceeds the majority fraction, and present
    otherwise; with the default fraction of one half, an identity seen in
    ten frames and drowsy in six of them is sleepy. *)
Theorem drowsy_majority_decides : forall majority ss sid t,
  In (sid, t) ss ->
  0 < Aggregator.count_seen t ->
  let ratio := (inject_Z (Z.of_nat (Aggregator.count_drowsy t))
                / inject_Z (Z.of_nat (Aggregator.count_seen t)))%Q in
  ((majority < ratio)%Q -> In (sid, sleepy) (Aggregator.finalize majority ss)) /\
  ((ratio <= majority)%Q -> In (sid, present) (Aggregator.finalize majority ss)) /\
  Aggregator.finalize Aggregator.default_majority
    (Aggregator.aggregate Aggregator.ten_frames_six_drowsy
       (Aggregator.open_session ["A"]))
  = [("A", sleepy)].
Proof.
  intros majority ss sid t Hin Hseen ratio.
  assert (Hfinal : In (sid, Aggregator.final_status majority t)
                      (Aggregator.finalize majority ss)).
  { unfold Aggregator.finalize.
    apply in_map_iff; exists (sid, t); split; [reflexivity | exact Hin]. }
  assert (Hseen' : Nat.eqb (Aggregator.count_seen t) 0 = false)
    by (apply Nat.eqb_neq; lia).
  pose proof (drowsy_fraction_is_quotient t Hseen) as Hq; fold ratio in Hq.
  unfold Aggregator.final_status in Hfinal; rewrite Hseen' in Hfinal.
  split; [|split].
  - intros Hgt.
    destruct (Qle_bool (Aggregator.drowsy_fraction t) majority) eqn:E;
      [|exact Hfinal].
    apply Qle_bool_iff in E; rewrite Hq in E.
    exfalso; apply (Qlt_not_le _ _ Hgt); exact E.
  - intros Hle.
    destruct (Qle_bool (Aggregator.drowsy_fraction t) majority) eqn:E;
      [exact Hfinal|].
    rewrite <- Hq in Hle; apply Qle_bool_iff in Hle; congruence.
  - reflexivity.
Qed.

Lemma drowsy_majority_decides_witness :
  let t := {| Aggregator.count_seen := 10; Aggregator.count_drowsy := 6;
              Aggregator.last_seen_timestamp := Some 9 |} in
  let ss := [("A", t); ("B", Aggregator.zero_tally)] in
  0 < Aggregator.count_seen t /\
  (1 # 2 < inject_Z 6 / inject_Z 10)%Q /\
  In ("A", sleepy) (Aggregator.finalize (1 # 2) ss).
Proof.
  split; [simpl; lia|].
  split; [reflexivity|].
  apply (drowsy_majority_decides (1 # 2)
           [("A", {| Aggregator.count_seen := 10; Aggregator.count_drowsy := 6;
                     Aggregator.last_seen_timestamp := Some 9 |});
            ("B", Aggregator.zero_tally)]
           "A" _ (or_introl eq_refl)).
  - simpl; lia.
  - reflexivity.
Defined.

(* ================================================================= *)
(** ** The matcher *)

Lemma Qle_bool_false : forall a b : Q, (b < a)%Q -> Qle_bool a b = false.
Proof.
  intros a b H; destruct (Qle_bool a b) eqn:E; [|reflexivity].
  apply Qle_bool_iff in E; lra.
Qed.

Lemma filter_none {A} (f : A -> bool) (l : list A) :
  (forall x, In x l -> f x = false) -> filter f l = [].
Proof.
  induction l as [|a l IH]; intros H; simpl; [reflexivity|].
  rewrite (H a (or_introl eq_refl)); apply IH.
  intros x Hx; apply H; right; exact Hx.
Qed.

Section MatcherFacts.

Variable Descriptor : Type.
Variable distance : Descriptor -> Descriptor -> Q.

Lemma scores_app : forall d (g1 g2 : list (Matcher.Identity Descriptor)),
  Matcher.scores distance d (g1 ++ g2) =
  Matcher.scores distance d g1 ++ Matcher.scores distance d g2.
Proof. intros; unfold Matcher.scores; apply flat_map_app. Qed.

Lemma scores_cons : forall d (i : Matcher.Identity Descriptor) g x,
  Matcher.identity_distance distance d i = Some x ->
  Matcher.scores distance d (i :: g) = (i, x) :: Matcher.scores distance d g.
Proof. intros d i g x H; simpl; rewrite H; reflexivity. Qed.

Lemma in_scores : forall d (g : list (Matcher.Identity Descriptor)) j y,
  In (j, y) (Matcher.scores distance d g) ->
  In j g /\ Matcher.identity_distance distance d j = Some y.
Proof.
  intros d g j y H; unfold Matcher.scores in H.
  apply in_flat_map in H as (i & Hi & Hin).
  destruct (Matcher.identity_distance distance d i) as [x|] eqn:E;
    [|contradiction].
  destruct Hin as [Heq | []]; injection Heq as -> ->; split; assumption.
Qed.

Lemma nearest_none_nil :
  forall (l : list (Matcher.Identity Descriptor * Q)) c l',
  Matcher.nearest (l ++ c :: l') = None -> False.
Proof.
  intros l c l' H.
  destruct (l ++ c :: l') as [|c0 rest] eqn:E;
    [destruct l; discriminate|].
  simpl in H; destruct (Matcher.nearest rest);
    [destruct (Qle_bool _ _)|]; discriminate.
Qed.

(** [nearest] picks an entry of the list, no farther than any other. *)
Lemma nearest_spec : forall (l : list (Matcher.Identity Descriptor * Q)) best,
  Matcher.nearest l = Some best ->
  In best l /\ forall c, In c l -> (snd best <= snd c)%Q.
Proof.
  induction l as [|c l IH]; intros best H; cbn [Matcher.nearest] in H;
    [discriminate|].
  destruct (Matcher.nearest l) as [b|] eqn:E.
  - destruct (IH b eq_refl) as [Hin Hmin].
    destruct (Qle_bool (snd c) (snd b)) eqn:Hle; injection H as <-.
    + apply Qle_bool_iff in Hle.
      split; [left; reflexivity|].
      intros c' [<- | Hc']; [lra|].
      specialize (Hmin c' Hc'); lra.
    + assert (snd b < snd c)%Q.
      { destruct (Qlt_le_dec (snd b) (snd c)) as [Hlt | Hge]; [exact Hlt|].
        apply Qle_bool_iff in Hge; congruence. }
      split; [right; exact Hin|].
      intros c' [<- | Hc']; [lra | apply Hmin; exact Hc'].
  - injection H as <-.
    destruct l as [|c0 l]; [|simpl in E; destruct (Matcher.nearest l);
                              [destruct (Qle_bool _ _)|]; discriminate].
    split; [left; reflexivity|].
    intros c' [<- | []]; lra.
Qed.

(** C8, amended.  (1) A descriptor within the threshold of exactly one
    identity, with every other identity farther than epsilon beyond that
    identity's distance, is matched to that identity.  (2) When two
    identities are both within epsilon of the globally minimum distance,
    the result is unknown.  (3) When the minimum distance to every
    identity exceeds the threshold, the result is unknown. *)
Theorem matcher_cases : forall threshold epsilon d,
  (forall before (i : Matcher.Identity Descriptor) after x,
      Matcher.identity_distance distance d i = Some x ->
      (x <= threshold)%Q ->
      (forall j y, In j (before ++ after) ->
                   Matcher.identity_distance distance d j = Some y ->
                   (threshold < y)%Q /\ (epsilon < y - x)%Q) ->
      Matcher.identity
        (Matcher.match_descriptor distance threshold epsilon d
           (before ++ i :: after))
      = Some (Matcher.student_id i)) /\
  (forall g1 (i : Matcher.Identity Descriptor) g2
          (j : Matcher.Identity Descriptor) g3 best m x y,
      Matcher.nearest (Matcher.scores distance d (g1 ++ i :: g2 ++ j :: g3))
      = Some (best, m) ->
      Matcher.identity_distance distance d i = Some x ->
      Matcher.identity_distance distance d j = Some y ->
      (x - m <= epsilon)%Q ->
      (y - m <= epsilon)%Q ->
      Matcher.identity
        (Matcher.match_descriptor distance threshold epsilon d
           (g1 ++ i :: g2 ++ j :: g3))
      = None) /\
  (forall gallery : list (Matcher.Identity Descriptor),
      (forall i x, In i gallery ->
                   Matcher.identity_distance distance d i = Some x ->
                   (threshold < x)%Q) ->
      Matcher.identity
        (Matcher.match_descriptor distance threshold epsilon d gallery)
      = None).
Proof.
  intros threshold epsilon d; split; [|split].
  - intros before i after x Hx Hthr Hothers.
    unfold Matcher.match_descriptor.
    rewrite scores_app, (scores_cons d i after x Hx).
    set (sb := Matcher.scores distance d before).
    set (sa := Matcher.scores distance d after).
    assert (Hfar : forall c, In c (sb ++ sa) ->
                             (threshold < snd c)%Q /\ (epsilon < snd c - x)%Q).
    { intros [j y] Hc; simpl.
      apply in_app_or in Hc.
      assert (Hj : In j (before ++ after) /\
                   Matcher.identity_distance distance d j = Some y).
      { destruct Hc as [Hc | Hc]; apply in_scores in Hc as [Hin Hd];
          (split; [apply in_or_app; auto | exact Hd]). }
      destruct Hj as [Hin Hd]; exact (Hothers j y Hin Hd). }
    destruct (Matcher.nearest (sb ++ (i, x) :: sa)) as [[best m]|] eqn:E.
    + apply nearest_spec in E as [Hin Hmin].
      assert (Hix : (m <= x)%Q).
      { apply (Hmin (i, x)); apply in_or_app; right; left; reflexivity. }
      assert (Hbest : (best, m) = (i, x)).
      { apply in_app_or in Hin as [Hin | [Heq | Hin]].
        - destruct (Hfar (best, m)) as [Hf _];
            [apply in_or_app; left; exact Hin|]; simpl in Hf; lra.
        - symmetry; exact Heq.
        - destruct (Hfar (best, m)) as [Hf _];
            [apply in_or_app; right; exact Hin|]; simpl in Hf; lra. }
      injection Hbest as -> ->.
      apply Qle_bool_iff in Hthr; rewrite Hthr; simpl negb; cbv iota.
      rewrite filter_app; simpl filter.
      rewrite (filter_none _ sb), (filter_none _ sa).
      * destruct (Matcher.within_epsilon epsilon x (i, x)); reflexivity.
      * intros c Hc; apply Qle_bool_false.
        apply (Hfar c); apply in_or_app; right; exact Hc.
      * intros c Hc; apply Qle_bool_false.
        apply (Hfar c); apply in_or_app; left; exact Hc.
    + destruct (nearest_none_nil _ _ _ E).
  - intros g1 i g2 j g3 best m x y Hnear Hx Hy Hxm Hym.
    unfold Matcher.match_descriptor; rewrite Hnear.
    destruct (negb (Qle_bool m threshold)); [reflexivity|].
    rewrite scores_app, (scores_cons d i _ x Hx),
            scores_app, (scores_cons d j _ y Hy).
    rewrite filter_app; simpl filter.
    unfold Matcher.within_epsilon at 2; simpl snd.
    apply Qle_bool_iff in Hxm; rewrite Hxm.
    rewrite filter_app; simpl filter.
    unfold Matcher.within_epsilon at 3; simpl snd.
    apply Qle_bool_iff in Hym; rewrite Hym.
    rewrite length_app; simpl List.length; rewrite length_app; simpl List.length.
    match goal with
    | |- context [(2 <=? ?n)%nat] =>
        replace (2 <=? n)%nat with true
          by (symmetry; apply Nat.leb_le; lia)
    end.
    reflexivity.
  - intros gallery Hall.
    unfold Matcher.match_descriptor.
    destruct (Matcher.nearest (Matcher.scores distance d gallery))
      as [[best m]|] eqn:E; [|reflexivity].
    apply nearest_spec in E as [Hin _].
    apply in_scores in Hin as [Hin Hd].
    rewrite (Qle_bool_false m threshold (Hall best m Hin Hd)); reflexivity.
Qed.

End MatcherFacts.

Lemma matcher_cases_witness :
  let a := Matcher.on_line "A" (1 # 10)%Q in
  let b := Matcher.on_line "B" (9 # 10)%Q in
  Matcher.identity_distance Matcher.line_distance 0%Q a = Some (1 # 10)%Q /\
  (1 # 10 <= 6 # 10)%Q /\
  Matcher.identity
    (Matcher.match_descriptor Matcher.line_distance (6 # 10)%Q (1 # 100)%Q 0%Q [a; b])
  = Some "A".
Proof.
  split; [reflexivity|].
  split; [unfold Qle; simpl; lia|].
  apply (proj1 (matcher_cases Q Matcher.line_distance (6 # 10)%Q (1 # 100)%Q 0%Q)
           [] (Matcher.on_line "A" (1 # 10)%Q) [Matcher.on_line "B" (9 # 10)%Q]
           (1 # 10)%Q).
  - reflexivity.
  - unfold Qle; simpl; lia.
  - intros j y [<- | []] H; injection H as <-.
    split; reflexivity.
Defined.

(** C8, as stated, fails.  With threshold 0.6 and epsilon 0.01, and A, B
    and C at distances 0.1, 0.9 and 0.9 of the descriptor: the distances of
    B and C are within epsilon of each other, yet the result is A, the only
    identity near.  With epsilon 0.05, and A and B at distances 0.59 and
    0.61: A is the one identity within the threshold, yet the result is
    unknown, B being within epsilon of the minimum. *)
Lemma matcher_far_pair_and_near_tie :
  let a := Matcher.on_line "A" (1 # 10)%Q in
  let b := Matcher.on_line "B" (9 # 10)%Q in
  let c := Matcher.on_line "C" (9 # 10)%Q in
  let a' := Matcher.on_line "A" (59 # 100)%Q in
  let b' := Matcher.on_line "B" (61 # 100)%Q in
  (Matcher.identity_distance Matcher.line_distance 0%Q b = Some (9 # 10)%Q /\
   Matcher.identity_distance Matcher.line_distance 0%Q c = Some (9 # 10)%Q /\
   (Qabs ((9 # 10)%Q - (9 # 10)%Q) <= 1 # 100)%Q /\
   Matcher.identity
     (Matcher.match_descriptor Matcher.line_distance (6 # 10)%Q (1 # 100)%Q 0%Q
        [a; b; c])
   = Some "A") /\
  (Matcher.identity_distance Matcher.line_distance 0%Q a' = Some (59 # 100)%Q /\
   (59 # 100 <= 6 # 10)%Q /\
   Matcher.identity_distance Matcher.line_distance 0%Q b' = Some (61 # 100)%Q /\
   (6 # 10 < 61 # 100)%Q /\
   Matcher.identity
     (Matcher.match_descriptor Matcher.line_distance (6 # 10)%Q (5 # 100)%Q 0%Q
        [a'; b'])
   = None).
Proof.
  repeat split; try reflexivity; unfold Qle; simpl; lia.
Qed.

(* ================================================================= *)
(** ** Status buttons and mark-all-present: how they compose *)

(** X1.  Two status updates of the same student in a row amount to the
    second one alone. *)
Theorem updateStatus_last_wins : forall sid s1 s2 st,
  updateStatus sid s2 (updateStatus sid s1 st) = updateStatus sid s2 st.
Proof.
  intros sid s1 s2 st; unfold updateStatus, setAttendance; simpl.
  f_equal; rewrite map_map; apply map_ext; intros a.
  destruct (String.eqb (studentId a) sid) eqn:E; simpl; rewrite E; reflexivity.
Qed.

(** X2.  Status updates of two different students can be made in either
    order. *)
Theorem updateStatus_commute : forall sid1 s1 sid2 s2 st,
  sid1 <> sid2 ->
  updateStatus sid1 s1 (updateStatus sid2 s2 st)
  = updateStatus sid2 s2 (updateStatus sid1 s1 st).
Proof.
  intros sid1 s1 sid2 s2 st Hne; unfold updateStatus, setAttendance; simpl.
  f_equal; rewrite !map_map; apply map_ext; intros a.
  destruct (String.eqb (studentId a) sid1) eqn:E1;
    destruct (String.eqb (studentId a) sid2) eqn:E2;
    simpl; rewrite ?E1, ?E2; try reflexivity.
  apply String.eqb_eq in E1, E2; congruence.
Qed.

Lemma updateStatus_commute_witness :
  let st := fst (run [StudentsFetched (Some [Sample.alice; Sample.bob])] init) in
  "s1" <> "s2" /\
  map status (attendance (updateStatus "s1" present (updateStatus "s2" sleepy st)))
  = [present; sleepy] /\
  updateStatus "s1" present (updateStatus "s2" sleepy st)
  = updateStatus "s2" sleepy (updateStatus "s1" present st).
Proof.
  split; [discriminate|]. split; [reflexivity|].
  apply (updateStatus_commute "s1" present "s2" sleepy); discriminate.
Defined.

(** X3.  A status update for an id that no entry of the roll carries
    changes nothing. *)
Theorem updateStatus_unknown_student : forall sid s st,
  ~ In sid (map studentId (attendance st)) ->
  updateStatus sid s st = st.
Proof.
  intros sid s st Hnot; unfold updateStatus, setAttendance.
  replace (map _ (attendance st)) with (attendance st); [destruct st; reflexivity|].
  rewrite <- (map_id (attendance st)) at 1.
  apply map_ext_in; intros a Ha.
  destruct (String.eqb (studentId a) sid) eqn:E; [|reflexivity].
  apply String.eqb_eq in E; exfalso; apply Hnot.
  rewrite <- E; apply in_map; exact Ha.
Qed.

Lemma updateStatus_unknown_student_witness :
  let st := fst (run [StudentsFetched (Some [Sample.alice; Sample.bob]);
                      ClickStatus "s1" present] init) in
  ~ In "s9" (map studentId (attendance st)) /\
  updateStatus "s9" sleepy st = st.
Proof.
  assert (H : ~ In "s9" (map studentId (attendance
                (fst (run [StudentsFetched (Some [Sample.alice; Sample.bob]);
                           ClickStatus "s1" present] init))))).
  { simpl; intros [H | [H | []]]; discriminate. }
  split; [exact H|].
  apply (updateStatus_unknown_student "s9" sleepy _ H).
Defined.

(** X4.  Mark-all-present wipes out the status updates made before it, is
    idempotent, and leaves every entry present whatever the roll was. *)
Theorem markAllPresent_absorbs : forall sid s st,
  markAllPresent (updateStatus sid s st) = markAllPresent st /\
  markAllPresent (markAllPresent st) = markAllPresent st /\
  map status (attendance (markAllPresent st))
  = repeat present (List.length (attendance st)).
Proof.
  intros sid s st; unfold markAllPresent, updateStatus, setAttendance; simpl.
  repeat split.
  - f_equal; rewrite map_map; apply map_ext; intros a.
    destruct (String.eqb (studentId a) sid); reflexivity.
  - f_equal; rewrite map_map; reflexivity.
  - rewrite map_map; simpl.
    induction (attendance st) as [|a l IH]; simpl; [reflexivity|].
    rewrite IH; reflexivity.
Qed.

(* ================================================================= *)
(** ** Invariants of a session of the page *)

Lemma handle_mirrors_students : forall ev st,
  map entry_identity (attendance st) = map student_identity (students st) ->
  map entry_identity (attendance (fst (handle ev st)))
  = map student_identity (students (fst (handle ev st))).
Proof.
  intros ev st H; destruct ev; simpl.
  - destruct data as [data|]; simpl; [|exact H].
    rewrite map_map; reflexivity.
  - destruct outcome; exact H.
  - exact H.
  - destruct (existsb _ _); exact H.
  - exact H.
  - rewrite map_map, <- H. apply map_ext; intros a.
    destruct (String.eqb _ _); reflexivity.
  - rewrite map_map, <- H. apply map_ext; intros a; reflexivity.
  - destruct (saving st); [exact H|].
    rewrite save_attendance_kept, save_students_kept; exact H.
Qed.

(** X5.  All along a session each entry of the roll carries the id, the
    name and the roll number of the student at the same place of the list
    the students query brought: the buttons change statuses only. *)
Theorem entries_mirror_students : forall evs,
  map entry_identity (attendance (fst (run evs init)))
  = map student_identity (fetched evs []).
Proof.
  intros evs.
  change (fetched evs []) with (fetched evs (students init)).
  rewrite <- (run_students evs init).
  apply (run_preserves
           (fun st => map entry_identity (attendance st)
                      = map student_identity (students st))
           (fun _ => true)); auto using forallb_true_any.
  intros; apply handle_mirrors_students; assumption.
Qed.

(** X6.  All along a session the lookup of a row's student among the
    students succeeds, and finds a student with the id of the entry: no row
    is drawn without its student. *)
Theorem student_of_entry_found : forall evs,
  let st := fst (run evs init) in
  Forall (fun entry =>
            exists s, student_of_entry st entry = Some s /\
                      Student.id s = studentId entry)
         (attendance st).
Proof.
  intros evs st; apply Forall_forall; intros entry Hin.
  assert (Hids : In (studentId entry) (map Student.id (students st))).
  { pose proof (run_roll_complete evs init eq_refl) as Hrc.
    unfold roll_complete in Hrc; fold st in Hrc.
    rewrite <- Hrc; apply in_map; exact Hin. }
  apply in_map_iff in Hids as (s0 & Hs0 & Hin0).
  unfold student_of_entry.
  destruct (find (fun s => String.eqb (Student.id s) (studentId entry))
                 (students st)) as [s|] eqn:E.
  - exists s; split; [reflexivity|].
    apply find_some in E as [_ E]; apply String.eqb_eq in E; exact E.
  - exfalso.
    pose proof (find_none _ _ E s0 Hin0) as Hnone; simpl in Hnone.
    rewrite Hs0, String.eqb_refl in Hnone; discriminate.
Qed.

Lemma handle_saving_released : forall ev st,
  saving st = false -> saving (fst (handle ev st)) = false.
Proof.
  intros ev st H; destruct ev; simpl; try exact H.
  - destruct data; exact H.
  - destruct outcome; exact H.
  - destruct (existsb _ _); exact H.
  - rewrite H. destruct user as [u|]; [|exact H].
    unfold saveAttendance; simpl; destruct (_ && _); reflexivity.
Qed.

Lemma selected_offered_or_hidden : forall st,
  In (selectedPeriod st) all_periods ->
  In (selectedPeriod st) (period_options st) \/
  (selectedPeriod st = "8" /\ period8Free st = true).
Proof.
  intros st H; unfold period_options, maxPeriods.
  destruct (period8Free st); simpl in *; [|left; exact H].
  destruct H as [H|[H|[H|[H|[H|[H|[H|[H|[]]]]]]]]]; auto 10.
Qed.

(** X8.  A roll handed to the database in a session is for a period the
    period select offers at that moment, with that number in every record:
    while the period-8-is-free switch is on, no roll for period 8 is
    committed. *)
Theorem committed_period_is_offered : forall evs user now error,
  let st := fst (run evs init) in
  Forall (fun rows =>
            exists p,
              In p (map (fun i => i + 1) (seq 0 (maxPeriods st))) /\
              selectedPeriod st = Js.toString p /\
              Forall (fun r => Js.get "period" r
                               = Some (Js.VNumber (Js.Num (Z.of_nat p)))) rows)
         (inserted (snd (saveAttendance user now error st))).
Proof.
  intros evs user now error st.
  pose proof (run_period_offered evs) as Hall; fold st in Hall.
  destruct (selected_offered_or_hidden st Hall) as [Hin | [H8 Hfree]].
  - unfold period_options in Hin.
    apply in_map_iff in Hin as (p & Hp & Hin).
    destruct (save_inserted user now error st) as [-> | (u & _ & ->)];
      constructor; [|constructor].
    exists p; split; [exact Hin|]. split; [symmetry; exact Hp|].
    apply Forall_forall; intros r Hr.
    apply in_map_iff in Hr as (a & <- & _).
    unfold record_of; simpl Js.get.
    rewrite <- Hp.
    unfold maxPeriods in Hin; destruct (period8Free st); simpl in Hin;
      repeat (destruct Hin as [<- | Hin]; [reflexivity|]); contradiction.
  - destruct user as [u|]; unfold saveAttendance; simpl.
    + rewrite H8, Hfree; simpl; constructor.
    + constructor.
Qed.

Lemma handle_ignores_camera : forall c ev st,
  is_camera ev = false ->
  handle ev (setCameraOn c st) =
  (setCameraOn c (fst (handle ev st)), snd (handle ev st)).
Proof.
  intros c ev st Hev; destruct ev; simpl in *; try reflexivity; try discriminate.
  - destruct data; reflexivity.
  - destruct outcome; reflexivity.
  - unfold period_options, maxPeriods; simpl.
    destruct (existsb _ _); reflexivity.
  - destruct (saving st); [reflexivity|].
    destruct user as [u|]; [|reflexivity].
    unfold saveAttendance; simpl.
    destruct (_ && _); reflexivity.
Qed.

Lemma run_without_camera : forall evs st c,
  snd (run (filter (fun ev => negb (is_camera ev)) evs) (setCameraOn c st))
  = snd (run evs st) /\
  setCameraOn false
    (fst (run (filter (fun ev => negb (is_camera ev)) evs) (setCameraOn c st)))
  = setCameraOn false (fst (run evs st)).
Proof.
  induction evs as [|ev evs IH]; intros st c; [split; reflexivity|].
  destruct (is_camera ev) eqn:E; cbn [filter]; rewrite E; cbn [negb].
  - destruct ev; try discriminate.
    rewrite (run_cons ClickCamera evs st); cbn [fst snd handle app].
    exact (IH (setCameraOn (negb (cameraOn st)) st) c).
  - rewrite !run_cons, (handle_ignores_camera c ev st E); cbn [fst snd].
    destruct (IH (fst (handle ev st)) c) as [-> ->]; split; reflexivity.
Qed.

(** X9.  The camera button has no bearing on attendance: a session with
    its camera clicks taken out ends with the same hooks but [cameraOn], and
    sends the same inserts, toasts and logs. *)
Theorem camera_is_irrelevant : forall evs,
  let with_camera := run evs init in
  let without := run (filter (fun ev => negb (is_camera ev)) evs) init in
  snd without = snd with_camera /\
  setCameraOn false (fst without) = setCameraOn false (fst with_camera) /\
  attendance (fst without) = attendance (fst with_camera).
Proof.
  intros evs with_camera without; subst with_camera without.
  destruct (run_without_camera evs init false) as [Hout Hst].
  change (setCameraOn false init) with init in Hout, Hst.
  split; [exact Hout|]. split; [exact Hst|].
  change (attendance (setCameraOn false
            (fst (run (filter (fun ev => negb (is_camera ev)) evs) init)))
          = attendance (setCameraOn false (fst (run evs init)))).
  rewrite Hst; reflexivity.
Qed.

Lemma save_feedback : forall u now error st,
  List.length (filter is_toast (snd (saveAttendance (Some u) now error st))) = 1 /\
  List.length (inserted (snd (saveAttendance (Some u) now error st))) <= 1.
Proof.
  intros u now error st; unfold saveAttendance; simpl.
  destruct (_ && _); [split; simpl; lia|].
  destruct error as [m|]; [destruct (Js.includes m _)|]; split; simpl; lia.
Qed.

Lemma run_feedback : forall evs st,
  saving st = false ->
  List.length (filter is_toast (snd (run evs st)))
  = List.length (filter is_signed_save evs) /\
  List.length (inserted (snd (run evs st)))
  <= List.length (filter is_signed_save evs).
Proof.
  induction evs as [|ev evs IH]; intros st Hs; [split; reflexivity|].
  rewrite run_cons; cbn [snd].
  destruct (IH (fst (handle ev st)) (handle_saving_released ev st Hs))
    as [IHt IHi].
  set (rest := snd (run evs (fst (handle ev st)))) in *; clearbody rest.
  unfold inserted in *; rewrite filter_app, flat_map_app, !length_app.
  rewrite IHt.
  destruct ev; cbn [filter is_signed_save handle snd];
    try (split; simpl; lia).
  - destruct outcome; split; simpl; lia.
  - destruct (existsb _ _); split; simpl; lia.
  - rewrite Hs. destruct user as [u|]; [|split; simpl; lia].
    destruct (save_feedback u now error st) as [Ht Hi].
    unfold inserted in Hi; rewrite Ht.
    set (k := List.length
                (flat_map _ (snd (saveAttendance (Some u) now error st)))) in *.
    clearbody k; split; simpl; lia.
Qed.

(** X10.  In a session every click on Save by a signed-in user is answered
    by exactly one toast and leads to at most one insert; nothing else of
    the page shows a toast or writes to the database. *)
Theorem one_toast_per_save : forall evs,
  let out := snd (run evs init) in
  List.length (filter is_toast out) = List.length (filter is_signed_save evs) /\
  List.length (inserted out) <= List.length (filter is_signed_save evs).
Proof. intros evs; apply run_feedback; reflexivity. Qed.

(** X11.  Every item the period select offers has its entry in
    [periodTimes]: the label of an item is never read off a missing
    entry, with the period-8-is-free switch on or off. *)
Theorem period_items_labelled : forall st,
  Forall (fun item => exists l, snd item = Some l) (period_items st) /\
  map fst (period_items st) = period_options st.
Proof.
  intros st; unfold period_items, period_options, maxPeriods.
  destruct (period8Free st); split;
    solve [reflexivity | repeat constructor; eexists; reflexivity].
Qed.

(* ================================================================= *)
(** ** The period as text, the day as text *)

Ltac eval_digit :=
  match goal with
  | |- context [Js.digit_value 10 ?c] =>
      let v := eval vm_compute in (Js.digit_value 10 c) in
      change (Js.digit_value 10 c) with v; cbv iota
  end.

Lemma parse_decimal_digits : forall d a,
  Js.parse_digits 10 (Some (Z.of_nat a)) (NilEmpty.string_of_uint d)
  = Some (Z.of_nat (Nat.of_uint_acc d a)).
Proof.
  induction d; intros a; try reflexivity;
    cbn [NilEmpty.string_of_uint Js.parse_digits Nat.of_uint_acc];
    eval_digit;
    match goal with
    | |- Js.parse_digits 10 (Some ?z) _ = Some (Z.of_nat (Nat.of_uint_acc _ ?k)) =>
        replace z with (Z.of_nat k) by (rewrite Nat.tail_mul_spec; lia)
    end;
    apply IHd.
Qed.

Lemma unorm_not_nil : forall d, Decimal.unorm d <> Decimal.Nil.
Proof. intros d; unfold Decimal.unorm; destruct (Decimal.nzhead d); discriminate. Qed.

Lemma to_uint_not_nil : forall n, Nat.to_uint n <> Decimal.Nil.
Proof.
  intros n.
  rewrite <- (DecimalNat.Unsigned.of_to n) at 1.
  rewrite DecimalNat.Unsigned.to_of; apply unorm_not_nil.
Qed.

Ltac eval_white_space :=
  match goal with
  | |- context [Js.is_white_space ?c] =>
      let v := eval vm_compute in (Js.is_white_space c) in
      change (Js.is_white_space c) with v
  end.

Ltac read_digits :=
  cbn [NilEmpty.string_of_uint Js.parse_digits Nat.of_uint_acc];
  repeat eval_digit;
  first
    [ reflexivity
    | match goal with
      | |- context [Js.parse_digits 10 (Some ?z) _] =>
          change z with (Z.of_nat (Z.to_nat z))
      end;
      rewrite parse_decimal_digits; reflexivity ].

Lemma parseInt_decimal : forall d,
  d <> Decimal.Nil ->
  Js.parseInt (NilEmpty.string_of_uint d) = Js.Num (Z.of_nat (Nat.of_uint d)).
Proof.
  intros d Hd; unfold Js.parseInt, Nat.of_uint.
  destruct d as [|d|d|d|d|d|d|d|d|d|d]; [contradiction| ..];
    cbn [NilEmpty.string_of_uint Js.skip_white_space];
    eval_white_space; cbv beta iota zeta;
    unfold Js.strip_hex_prefix; cbv beta iota;
    try read_digits.
  destruct d as [|d|d|d|d|d|d|d|d|d|d];
    cbn [NilEmpty.string_of_uint]; cbv beta iota; read_digits.
Qed.

(** X12.  A non-negative integer up to 2^53 - 1, the range in which a
    JavaScript number is an exact integer and [toString] writes it in plain
    decimal digits, is read back by [parseInt] as itself when written by
    [toString]: the period the select hands over as text is the number the
    save works with. *)
Theorem parseInt_toString : forall n,
  (Z.of_nat n <= 9007199254740991)%Z ->
  Js.parseInt (Js.toString n) = Js.Num (Z.of_nat n).
Proof.
  intros n _; unfold Js.toString.
  rewrite parseInt_decimal by apply to_uint_not_nil.
  rewrite DecimalNat.Unsigned.of_to; reflexivity.
Qed.

Lemma parseInt_toString_witness :
  (Z.of_nat 8 <= 9007199254740991)%Z /\
  Js.parseInt (Js.toString 8) = Js.Num 8.
Proof.
  assert (H : (Z.of_nat 8 <= 9007199254740991)%Z) by (vm_compute; discriminate).
  split; [exact H | exact (parseInt_toString 8 H)].
Defined.

Lemma digit_char_inj : forall a b,
  (a < 10)%N -> (b < 10)%N -> Js.digit_char a = Js.digit_char b -> a = b.
Proof.
  intros a b Ha Hb H.
  assert (Hcases : forall n, (n < 10)%N ->
            n = 0%N \/ n = 1%N \/ n = 2%N \/ n = 3%N \/ n = 4%N \/
            n = 5%N \/ n = 6%N \/ n = 7%N \/ n = 8%N \/ n = 9%N) by (intros; lia).
  destruct (Hcases a Ha) as [->|[->|[->|[->|[->|[->|[->|[->|[->| ->]]]]]]]]];
    destruct (Hcases b Hb) as [->|[->|[->|[->|[->|[->|[->|[->|[->| ->]]]]]]]]];
    try reflexivity; discriminate H.
Qed.

(** Equal digit strings of a width come from numbers equal modulo ten to
    that width. *)
Lemma fixed_digits_inj : forall w n m,
  Js.fixed_digits w n = Js.fixed_digits w m ->
  (n mod 10 ^ N.of_nat w = m mod 10 ^ N.of_nat w)%N.
Proof.
  induction w as [|w IH]; intros n m H.
  - simpl; rewrite !N.mod_1_r; reflexivity.
  - cbn [Js.fixed_digits] in H; injection H as Hd Hrest.
    apply digit_char_inj in Hd; try (apply N.mod_lt; discriminate).
    specialize (IH n m Hrest).
    rewrite Nnat.Nat2N.inj_succ, N.pow_succ_r', (N.mul_comm 10).
    rewrite !N.Div0.mod_mul_r, IH, Hd; reflexivity.
Qed.

Lemma today_explicit : forall now,
  (Js.utcFullYear now <= 9999)%N ->
  Js.split_first "T" (Js.toISOString now)
  = (Js.fixed_digits 4 (Js.utcFullYear now)
     ++ String "-" (Js.fixed_digits 2 (Js.utcMonth now + 1)
     ++ String "-" (Js.fixed_digits 2 (Js.utcDate now))))%string.
Proof.
  intros now Hyear; unfold Js.toISOString.
  apply N.leb_le in Hyear; rewrite Hyear.
  cbn [Js.fixed_digits append Js.split_first].
  rewrite !digit_char_not_T.
  cbn [Js.split_first Ascii.eqb Bool.eqb].
  reflexivity.
Qed.

(** X13.  The date of a record is the UTC day of the save and nothing
    more: for times up to year 9999, two saves get the same date exactly
    when they fall on the same UTC year, month and day. *)
Theorem date_is_utc_day : forall now1 now2,
  (Js.utcFullYear now1 <= 9999)%N -> (Js.utcFullYear now2 <= 9999)%N ->
  (Js.utcMonth now1 < 12)%N -> (Js.utcMonth now2 < 12)%N ->
  (Js.utcDate now1 <= 31)%N -> (Js.utcDate now2 <= 31)%N ->
  (Js.split_first "T" (Js.toISOString now1)
   = Js.split_first "T" (Js.toISOString now2)
   <-> utc_day now1 = utc_day now2).
Proof.
  intros now1 now2 Hy1 Hy2 Hm1 Hm2 Hd1 Hd2.
  rewrite !today_explicit by assumption.
  unfold utc_day; split.
  - intros H.
    cbn [Js.fixed_digits append] in H.
    injection H as Y3 Y2 Y1 Y0 M1 M0 D1 D0.
    assert (HY : Js.fixed_digits 4 (Js.utcFullYear now1)
                 = Js.fixed_digits 4 (Js.utcFullYear now2))
      by (cbn [Js.fixed_digits];
          f_equal; [exact Y3 | f_equal; [exact Y2 | f_equal;
                                          [exact Y1 | f_equal; exact Y0]]]).
    assert (HM : Js.fixed_digits 2 (Js.utcMonth now1 + 1)
                 = Js.fixed_digits 2 (Js.utcMonth now2 + 1))
      by (cbn [Js.fixed_digits]; f_equal; [exact M1 | f_equal; exact M0]).
    assert (HD : Js.fixed_digits 2 (Js.utcDate now1)
                 = Js.fixed_digits 2 (Js.utcDate now2))
      by (cbn [Js.fixed_digits]; f_equal; [exact D1 | f_equal; exact D0]).
    apply fixed_digits_inj in HY, HM, HD.
    rewrite !N.mod_small in HY, HM, HD by (simpl; lia).
    assert (Js.utcMonth now1 = Js.utcMonth now2) by lia.
    congruence.
  - intros H; injection H as -> -> ->; reflexivity.
Qed.

Lemma date_is_utc_day_witness :
  (Js.utcFullYear Sample.now <= 9999)%N /\
  (Js.utcMonth Sample.now < 12)%N /\
  (Js.utcDate Sample.now <= 31)%N /\
  utc_day Sample.now = utc_day Sample.later /\
  Js.split_first "T" (Js.toISOString Sample.now)
  = Js.split_first "T" (Js.toISOString Sample.later).
Proof.
  assert (Hy : (2024 <= 9999)%N) by (vm_compute; discriminate).
  assert (Hm : (4 < 12)%N) by reflexivity.
  assert (Hd : (1 <= 31)%N) by (vm_compute; discriminate).
  split; [exact Hy|]. split; [exact Hm|]. split; [exact Hd|].
  split; [reflexivity|].
  apply (date_is_utc_day Sample.now Sample.later Hy Hy Hm Hm Hd Hd).
  reflexivity.
Defined.

(* ================================================================= *)
(** ** The layout, the faculty page and the records page *)

(** X14.  Whoever is signed in and whatever the location, the links of the
    side bar have pairwise different paths (they are the keys of the list),
    at most one of them is highlighted, and the four common links come
    first, in the same order. *)
Theorem nav_links_distinct : forall profile pathname,
  let items := DashboardLayout.allNavItems profile in
  NoDup (map DashboardLayout.path items) /\
  List.length (filter (DashboardLayout.active pathname) items) <= 1 /\
  firstn 4 items = DashboardLayout.navItems.
Proof.
  intros profile pathname items; subst items.
  unfold DashboardLayout.allNavItems.
  assert (Hnodup : NoDup (map DashboardLayout.path
                     (DashboardLayout.navItems ++ DashboardLayout.principalItems))).
  { simpl. repeat constructor; simpl; intuition discriminate. }
  assert (Hone : forall items,
             NoDup (map DashboardLayout.path items) ->
             List.length (filter (DashboardLayout.active pathname) items) <= 1).
  { induction items as [|i items IH]; intros Hnd; simpl; [lia|].
    inversion Hnd as [|? ? Hnotin Hnd']; subst.
    destruct (DashboardLayout.active pathname i) eqn:E; [|apply IH; exact Hnd'].
    apply String.eqb_eq in E.
    rewrite filter_none; [simpl; lia|].
    intros j Hj; unfold DashboardLayout.active.
    apply String.eqb_neq; intros Heq.
    apply Hnotin; rewrite <- E, Heq; apply in_map; exact Hj. }
  destruct (is_principal profile).
  - split; [exact Hnodup|]. split; [apply Hone; exact Hnodup | reflexivity].
  - assert (Hnd4 : NoDup (map DashboardLayout.path DashboardLayout.navItems)).
    { rewrite map_app in Hnodup; apply NoDup_app_remove_r in Hnodup; exact Hnodup. }
    split; [exact Hnd4|]. split; [apply Hone; exact Hnd4 | reflexivity].
Qed.

(** X15.  The side bar offers the Faculty link exactly to those the faculty
    page serves: to a principal, and to nobody else (no profile, or any
    other role). *)
Theorem faculty_link_matches_page : forall profile,
  existsb (fun i => String.eqb (DashboardLayout.path i) "/faculty")
          (DashboardLayout.allNavItems profile)
  = negb (FacultyPage.restricted profile).
Proof.
  intros profile; unfold DashboardLayout.allNavItems, FacultyPage.restricted.
  destruct (is_principal profile); reflexivity.
Qed.

(** X16.  Every record the live page commits in a session is drawn in full
    by the records page: its period has a time there and its status has a
    badge style of its own. *)
Theorem committed_records_are_drawn : forall evs user now error,
  Forall (fun rows =>
            Forall (fun r =>
                      exists period time status,
                        AttendancePage.row_cells r
                        = Some (period, Some time,
                                AttendancePage.statusBadge status) /\
                        AttendancePage.variant_of status <> "") rows)
         (inserted (snd (saveAttendance user now error (fst (run evs init))))).
Proof.
  intros evs user now error.
  destruct (parse_offered_period _ (run_period_offered evs)) as (p & Hp & Hrange).
  destruct (save_inserted user now error (fst (run evs init)))
    as [-> | (u & _ & ->)]; constructor; [|constructor].
  apply Forall_forall; intros r Hr.
  apply in_map_iff in Hr as (a & <- & _).
  rewrite Hp; unfold AttendancePage.row_cells, record_of;
    cbn [Js.get String.eqb Ascii.eqb Bool.eqb].
  assert (Htime : exists time, AttendancePage.periodTimes_at (Js.Num p) = Some time).
  { assert (Hp8 : (p = 1 \/ p = 2 \/ p = 3 \/ p = 4 \/
                   p = 5 \/ p = 6 \/ p = 7 \/ p = 8)%Z) by lia.
    destruct Hp8 as [->|[->|[->|[->|[->|[->|[->| ->]]]]]]]; eexists; reflexivity. }
  destruct Htime as (time & Htime).
  exists (Js.Num p), time, (status_string (status a)).
  rewrite Htime; split; [reflexivity|].
  destruct (status a); discriminate.
Qed.

(* ================================================================= *)
(** ** Joining as faculty and registering *)

Ltac in_cases H :=
  simpl in H;
  repeat match type of H with
         | _ \/ _ => destruct H as [H | H]
         | False => destruct H
         | _ = _ => first [discriminate H | injection H; clear H; intros]
         end.

(** X17.  Whatever the services answer to a join: an account is signed up
    only after the code was found unused; a profile is written only for the
    user the sign-up returned, as faculty, under the name typed and the
    principal of the code; and the code is marked used only after the
    profile was written without error. *)
Theorem join_writes_are_guarded : forall r st,
  let out := snd (JoinFaculty.handleJoin r st) in
  (existsb JoinFaculty.is_sign_up out = JoinFaculty.code_accepted r) /\
  (forall uid full_name role pid,
      In (JoinFaculty.InsertProfile uid full_name role pid) out ->
      JoinFaculty.code_accepted r = true /\
      JoinFaculty.signUpError r = None /\
      JoinFaculty.signUpUser r = Some uid /\
      full_name = JoinFaculty.fullName st /\
      role = "faculty" /\
      option_map JoinFaculty.principal_id (JoinFaculty.codeData r) = Some pid) /\
  (forall code_id,
      In (JoinFaculty.MarkCodeUsed code_id) out ->
      existsb JoinFaculty.is_insert out = true /\
      JoinFaculty.profileError r = None /\
      option_map JoinFaculty.id (JoinFaculty.codeData r) = Some code_id).
Proof.
  intros [[row|] [ce|] [uid|] [se|] [pe|] me] st; simpl;
    (split; [reflexivity|]); split; intros; in_cases H; subst;
    repeat split; reflexivity.
Qed.


(** X19.  Whatever the services answer to a registration: a profile is
    written only for the user the sign-up returned, as principal, with the
    name and school typed; the page goes to the login page exactly when
    sign-up and profile both went through; [loading] ends off; and exactly
    one toast is shown, except when the sign-up answers with neither an
    error nor a user. *)
Theorem register_writes_are_guarded : forall r st,
  let result := Register.handleRegister r st in
  (forall uid full_name role school,
      In (Register.InsertProfile uid full_name role school) (snd result) ->
      Register.signUpError r = None /\
      Register.signUpUser r = Some uid /\
      full_name = Register.fullName st /\
      role = "principal" /\
      school = Register.schoolName st) /\
  fst result = Register.setLoading false st /\
  existsb Register.is_navigate (snd result)
  = (JoinFaculty.some (Register.signUpUser r)
     && negb (JoinFaculty.some (Register.signUpError r))
     && negb (JoinFaculty.some (Register.profileError r))) /\
  List.length (filter Register.is_toast (snd result))
  = (if negb (JoinFaculty.some (Register.signUpError r))
        && negb (JoinFaculty.some (Register.signUpUser r))
     then 0 else 1).
Proof.
  intros [[uid|] [se|] [pe|]] st; simpl;
    (split; [intros; in_cases H; subst; repeat split; reflexivity|]);
    repeat split.
Qed.

Lemma join_writes_are_guarded_witness :
  let r := {| JoinFaculty.codeData :=
                Some {| JoinFaculty.id := "c1"; JoinFaculty.principal_id := "p1" |};
              JoinFaculty.codeError := None;
              JoinFaculty.signUpUser := Some "u7";
              JoinFaculty.signUpError := None;
              JoinFaculty.profileError := Some "row-level security";
              JoinFaculty.markUsedError := None |} in
  let st := {| JoinFaculty.code := "AB12CD"; JoinFaculty.fullName := "Carol";
               JoinFaculty.email := "carol@school.edu";
               JoinFaculty.password := "secret1"; JoinFaculty.loading := false |} in
  snd (JoinFaculty.handleJoin r st)
  = [JoinFaculty.SelectUnusedCode "AB12CD";
     JoinFaculty.SignUp "carol@school.edu" "secret1";
     JoinFaculty.InsertProfile "u7" "Carol" "faculty" "p1";
     JoinFaculty.ToastError "row-level security"] /\
  JoinFaculty.signUpUser r = Some "u7".
Proof.
  intros r st; split; [reflexivity|].
  refine (proj1 (proj2 (proj2 (proj1 (proj2
           (join_writes_are_guarded r st)) "u7" "Carol" "faculty" "p1" _)))).
  right; right; left; reflexivity.
Defined.

Lemma register_writes_are_guarded_witness :
  let r := {| Register.signUpUser := Some "u1"; Register.signUpError := None;
              Register.profileError := None |} in
  let st := {| Register.fullName := "Dana"; Register.schoolName := "Hill School";
               Register.email := "dana@hill.edu"; Register.password := "secret1";
               Register.loading := false |} in
  snd (Register.handleRegister r st)
  = [Register.SignUp "dana@hill.edu" "secret1";
     Register.InsertProfile "u1" "Dana" "principal" "Hill School";
     Register.ToastSuccess "Account created! Please check your email to verify.";
     Register.Navigate "/login"] /\
  Register.signUpUser r = Some "u1".
Proof.
  intros r st; split; [reflexivity|].
  refine (proj1 (proj2 (proj1
           (register_writes_are_guarded r st) "u1" "Dana" "principal"
           "Hill School" _))).
  right; left; reflexivity.
Defined.

(* ================================================================= *)
(** ** Adding a student *)

Lemma append_snoc : forall (a : string) c rest,
  ((a ++ String c EmptyString) ++ rest)%string = (a ++ String c rest)%string.
Proof. induction a as [|x a IH]; intros; simpl; [|rewrite IH]; reflexivity. Qed.

Lemma string_app_assoc : forall a b c : string,
  ((a ++ b) ++ c)%string = (a ++ (b ++ c))%string.
Proof. induction a as [|x a IH]; intros; simpl; [|rewrite IH]; reflexivity. Qed.

Lemma contains_snoc : forall sep a c,
  StudentsPage.contains sep (a ++ String c EmptyString)
  = StudentsPage.contains sep a || Ascii.eqb c sep.
Proof.
  induction a as [|x a IH]; intros c; simpl.
  - rewrite orb_false_r; reflexivity.
  - rewrite IH, orb_assoc; reflexivity.
Qed.

Lemma split_last_from_spec : forall sep s acc,
  StudentsPage.contains sep acc = false ->
  StudentsPage.contains sep (StudentsPage.split_last_from sep acc s) = false /\
  (if StudentsPage.contains sep s
   then exists stem, (acc ++ s)%string
                     = (stem ++ String sep (StudentsPage.split_last_from sep acc s))%string
   else StudentsPage.split_last_from sep acc s = (acc ++ s)%string).
Proof.
  induction s as [|c s IH]; intros acc Hacc; simpl.
  - split; [exact Hacc|]. clear Hacc; induction acc; simpl; congruence.
  - destruct (Ascii.eqb c sep) eqn:E; simpl.
    + apply Ascii.eqb_eq in E; subst c.
      destruct (IH EmptyString eq_refl) as [Hno Hcase]; split; [exact Hno|].
      destruct (StudentsPage.contains sep s).
      * destruct Hcase as (stem & Hstem); simpl in Hstem.
        exists (acc ++ String sep stem)%string.
        rewrite string_app_assoc; simpl; do 2 f_equal; exact Hstem.
      * exists acc; rewrite Hcase; reflexivity.
    + assert (Hacc' : StudentsPage.contains sep (acc ++ String c EmptyString) = false)
        by (rewrite contains_snoc, Hacc, E; reflexivity).
      destruct (IH _ Hacc') as [Hno Hcase]; split; [exact Hno|].
      rewrite append_snoc in Hcase; exact Hcase.
Qed.

(** X20.  The extension taken from a file name ([name.split(".").pop()])
    never holds a dot; it is what follows the last dot of the name, and the
    whole name when the name has no dot. *)
Theorem extension_of_file_name : forall file_name,
  let ext := StudentsPage.split_last "." file_name in
  StudentsPage.contains "." ext = false /\
  (if StudentsPage.contains "." file_name
   then exists stem, file_name = (stem ++ String "." ext)%string
   else ext = file_name).
Proof.
  intros file_name ext; subst ext; unfold StudentsPage.split_last.
  exact (split_last_from_spec "." file_name EmptyString eq_refl).
Qed.

(** X21.  Whatever the services answer when a student is added: a student
    row is written only under a known, non-empty principal id, with the
    name and roll number typed; without a photo its [photo_url] is null;
    with a photo, only after the upload went through, to the path
    [principal/now.ext] of the photo bucket whose public URL the row then
    carries.  The form is cleared and the list fetched anew exactly
    together, and otherwise the form stays as typed; exactly one toast is
    shown. *)
Theorem student_insert_is_guarded : forall publicUrl profile now r st,
  let result := StudentsPage.handleAddStudent publicUrl profile now r st in
  (forall full_name roll pid photo_url,
      In (StudentsPage.InsertStudent full_name roll pid photo_url) (snd result) ->
      StudentsPage.principalId profile = Some pid /\
      StudentsPage.truthy pid = true /\
      full_name = StudentsPage.fullName st /\
      roll = StudentsPage.rollNumber st /\
      match StudentsPage.photo st with
      | None => photo_url = None
      | Some file =>
          let path :=
            (pid ++ "/" ++ Js.number_to_string (Js.Num now) ++ "."
             ++ StudentsPage.split_last "." (StudentsPage.name file))%string in
          StudentsPage.uploadError r = None /\
          photo_url = Some (publicUrl path) /\
          In (StudentsPage.Upload "student_photos" path false) (snd result)
      end) /\
  fst result = (if existsb StudentsPage.is_fetch (snd result)
                then StudentsPage.cleared else st) /\
  List.length (filter StudentsPage.is_toast (snd result)) = 1.
Proof.
  intros publicUrl profile now r st result; subst result.
  unfold StudentsPage.handleAddStudent.
  assert (Htruthy : forall pid, StudentsPage.principalId profile = Some pid ->
                                StudentsPage.truthy pid = true).
  { unfold StudentsPage.principalId; intros pid H.
    destruct (match profile with Some _ => _ | None => _ end) as [raw|];
      [|discriminate].
    destruct (StudentsPage.truthy raw) eqn:E; [|discriminate].
    injection H as <-; exact E. }
  destruct (StudentsPage.principalId profile) as [pid|] eqn:Hpid.
  - specialize (Htruthy pid eq_refl).
    destruct (StudentsPage.photo st) as [file|];
      destruct r as [[ue|] [ie|]]; cbn [StudentsPage.uploadError
        StudentsPage.insertError app fst snd];
      (split; [intros full_name roll pid' url H; in_cases H; subst;
               repeat split; solve [assumption | reflexivity | left; reflexivity]
              | split; reflexivity]).
  - split; [intros full_name roll pid url H; in_cases H | split; reflexivity].
Qed.

Lemma student_insert_is_guarded_witness :
  let profile := Some {| Profile.id := "f3"; Profile.full_name := Some "Erin";
                         Profile.role := "faculty";
                         Profile.principal_id := Some "p1";
                         Profile.school_name := None |} in
  let st := {| StudentsPage.fullName := "Frank"; StudentsPage.rollNumber := "12";
               StudentsPage.photo := Some {| StudentsPage.name := "frank.2024.JPG" |};
               StudentsPage.dialogOpen := true |} in
  let r := {| StudentsPage.uploadError := None; StudentsPage.insertError := None |} in
  let publicUrl := fun path => ("https://cdn/" ++ path)%string in
  snd (StudentsPage.handleAddStudent publicUrl profile 1700000000000 r st)
  = [StudentsPage.Upload "student_photos" "p1/1700000000000.JPG" false;
     StudentsPage.InsertStudent "Frank" "12" "p1"
       (Some "https://cdn/p1/1700000000000.JPG");
     StudentsPage.ToastSuccess "Student added!";
     StudentsPage.FetchStudents] /\
  StudentsPage.principalId profile = Some "p1".
Proof.
  intros profile st r publicUrl; split; [reflexivity|].
  refine (proj1 (proj1 (student_insert_is_guarded publicUrl profile
                          1700000000000 r st)
                   "Frank" "12" "p1" (Some "https://cdn/p1/1700000000000.JPG") _)).
  right; left; reflexivity.
Defined.

(* ================================================================= *)
(** ** Where the pages send the user *)

(** X22.  No navigation of the pages ends on the not-found page: the
    targets of the join, register, login and reset handlers, of the
    layout's redirect and of every side-bar link are paths of routes of the
    application, and the link the login page asks the reset email to carry
    leads to the reset page. *)
Theorem navigations_are_routes :
  (forall r st,
      forallb App.served
        (JoinFaculty.navigations (snd (JoinFaculty.handleJoin r st))) = true) /\
  (forall r st,
      forallb App.served
        (Register.navigations (snd (Register.handleRegister r st))) = true) /\
  (forall error st,
      forallb App.served
        (Login.navigations (snd (Login.handleLogin error st))) = true) /\
  (forall hash,
      forallb App.served
        (ResetPassword.navigations (ResetPassword.checkLink hash)) = true) /\
  (forall error st,
      forallb App.served
        (ResetPassword.navigations (snd (ResetPassword.handleReset error st)))
      = true) /\
  (forall loading user,
      match DashboardLayout.redirect loading user with
      | Some p => App.declared p = Some App.LoginPage
      | None => True
      end) /\
  (forall profile,
      forallb App.served
        (map DashboardLayout.path (DashboardLayout.allNavItems profile)) = true) /\
  (forall origin error st,
      Forall (fun e =>
                match e with
                | Login.ResetPasswordForEmail _ url =>
                    exists p, url = (origin ++ p)%string /\
                              App.declared p = Some App.ResetPasswordPage
                | _ => True
                end)
             (Login.handleForgotPassword origin error st)) /\
  App.declared "/" = Some App.ToLogin.
Proof.
  repeat split.
  - intros [[row|] [ce|] [uid|] [se|] [pe|] me] st; reflexivity.
  - intros [[uid|] [se|] [pe|]] st; reflexivity.
  - intros [e|] st; reflexivity.
  - intros hash; unfold ResetPassword.checkLink.
    destruct (negb _); reflexivity.
  - intros [e|] st; reflexivity.
  - intros [|] [u|]; simpl; trivial.
  - intros profile; unfold DashboardLayout.allNavItems.
    destruct (is_principal profile); reflexivity.
  - intros origin error st; unfold Login.handleForgotPassword.
    destruct (String.eqb _ _); [repeat constructor|].
    destruct error; repeat constructor; eexists; split; reflexivity.
Qed.

(* ================================================================= *)
(** ** Adding a faculty member *)

Lemma prefix_here : forall s rest, String.prefix s (s ++ rest) = true.
Proof.
  induction s as [|c s IH]; intros rest; simpl; [destruct rest; reflexivity|].
  destruct (ascii_dec c c); [apply IH | contradiction].
Qed.

Lemma includes_here : forall s rest, Js.includes (s ++ rest) s = true.
Proof.
  intros s rest; destruct s as [|c s]; [destruct rest; reflexivity|].
  cbn [append Js.includes].
  change (String c (s ++ rest)) with (String c s ++ rest)%string.
  rewrite prefix_here; reflexivity.
Qed.

Lemma includes_skip : forall before s x,
  Js.includes x s = true -> Js.includes (before ++ x) s = true.
Proof.
  induction before as [|c before IH]; intros s x H; [exact H|].
  cbn [append Js.includes].
  destruct (String.prefix s (String c (before ++ x))); [reflexivity|].
  apply IH; exact H.
Qed.

(** X23.  When a signed-in principal adds a faculty member, the first thing
    the page does is show a toast that spells out the e-mail address and
    the password typed; only then is the sign-up attempted, and the toast
    has been shown also when the sign-up fails.  The form is cleared exactly
    when the sign-up returned a user without error. *)
Theorem credentials_shown_before_sign_up : forall u r st,
  let result := AddFaculty.handleAddFaculty (Some u) r st in
  (exists msg rest,
      snd result
      = AddFaculty.ToastInfo msg
        :: AddFaculty.SignUp (AddFaculty.newFacultyEmail st)
                             (AddFaculty.newFacultyPassword st)
        :: rest /\
      Js.includes msg (AddFaculty.newFacultyEmail st) = true /\
      Js.includes msg (AddFaculty.newFacultyPassword st) = true) /\
  fst result
  = (if JoinFaculty.some (AddFaculty.signUpUser r)
        && negb (JoinFaculty.some (AddFaculty.signUpError r))
     then AddFaculty.cleared else st).
Proof.
  intros u [[uid|] [se|]] st result; subst result;
    unfold AddFaculty.handleAddFaculty;
    cbn [AddFaculty.signUpError AddFaculty.signUpUser fst snd
         JoinFaculty.some andb negb];
    (split; [|reflexivity]);
    eexists; eexists; (split; [reflexivity|]); split.
  all: try (do 3 apply includes_skip; apply includes_here).
  all: do 6 apply includes_skip; apply includes_here.
Qed.

(* ================================================================= *)
(** ** The avatars of the rows *)

Lemma find_by_unique_id : forall (l : list Student.t) s,
  NoDup (map Student.id l) -> In s l ->
  find (fun x => String.eqb (Student.id x) (Student.id s)) l = Some s.
Proof.
  induction l as [|h l IH]; intros s Hnd Hin; [contradiction|].
  inversion Hnd as [|? ? Hnotin Hnd']; subst; simpl.
  destruct Hin as [-> | Hin]; [rewrite String.eqb_refl; reflexivity|].
  destruct (String.eqb (Student.id h) (Student.id s)) eqn:E.
  - apply String.eqb_eq in E; exfalso; apply Hnotin.
    rewrite E; apply in_map; exact Hin.
  - apply IH; assumption.
Qed.

Lemma avatars_of_mirrored_rows : forall st entries l,
  NoDup (map Student.id (students st)) ->
  incl l (students st) ->
  map entry_identity entries = map student_identity l ->
  map (row_avatar st) entries = map student_avatar l.
Proof.
  intros st; induction entries as [|a entries IH]; intros l Hnd Hincl Hmirror;
    destruct l as [|s l]; try discriminate; [reflexivity|].
  simpl in Hmirror; injection Hmirror as Hid Hname _ Hrest.
  simpl; f_equal.
  - unfold row_avatar, student_of_entry, student_avatar.
    rewrite Hid, (find_by_unique_id _ s Hnd (Hincl s (or_introl eq_refl))).
    rewrite Hname; reflexivity.
  - apply IH; try assumption.
    intros x Hx; apply Hincl; right; exact Hx.
Qed.

(** X24.  When the students the query brought have pairwise different
    ids, every row of the list shows, all along a session, the avatar of
    the student at the same place of the list: the student's photo when the
    student has a non-empty photo URL, the first letter of the student's
    name otherwise. *)
Theorem rows_show_their_student : forall evs,
  NoDup (map Student.id (fetched evs [])) ->
  let st := fst (run evs init) in
  map (row_avatar st) (attendance st) = map student_avatar (fetched evs []).
Proof.
  intros evs Hnd st.
  assert (Hst : students st = fetched evs []) by apply (run_students evs init).
  assert (Hmirror : map entry_identity (attendance st)
                    = map student_identity (students st)).
  { apply (run_preserves
             (fun st => map entry_identity (attendance st)
                        = map student_identity (students st))
             (fun _ => true)); auto using forallb_true_any.
    intros; apply handle_mirrors_students; assumption. }
  rewrite <- Hst in *.
  apply avatars_of_mirrored_rows; [exact Hnd | apply incl_refl | exact Hmirror].
Qed.

Lemma rows_show_their_student_witness :
  let carol := {| Student.id := "s3"; Student.full_name := "Carol";
                  Student.roll_number := "3";
                  Student.photo_url := Some "https://cdn/p1/s3.jpg" |} in
  let evs := [StudentsFetched (Some [Sample.alice; carol]);
              ClickStatus "s3" sleepy; ClickMarkAllPresent] in
  NoDup (map Student.id (fetched evs [])) /\
  map (row_avatar (fst (run evs init))) (attendance (fst (run evs init)))
  = [Initial "A"; Photo "https://cdn/p1/s3.jpg" "Carol"].
Proof.
  intros carol evs.
  assert (Hnd : NoDup (map Student.id (fetched evs []))).
  { simpl; repeat constructor; simpl; intuition discriminate. }
  split; [exact Hnd|].
  exact (rows_show_their_student evs Hnd).
Defined.

(* ================================================================= *)
(** ** The save across its wait *)

Lemma handle_keeps_saving : forall ev st,
  match ev with ClickSave _ _ _ => False | _ => True end ->
  saving (fst (handle ev st)) = saving st /\
  inserted (snd (handle ev st)) = [] /\
  filter InFlight.is_report (snd (handle ev st)) = [].
Proof.
  intros ev st Hev; destruct ev; simpl in *; try contradiction;
    try (repeat split; reflexivity).
  - destruct data; repeat split.
  - destruct outcome; repeat split.
  - destruct (existsb _ _); repeat split.
Qed.

(** One step keeps the flag in step with the awaited insert, and the
    balance of inserts sent and answers reported. *)
Lemma step_balance : forall s p,
  saving (InFlight.hooks p) = InFlight.is_awaiting p ->
  saving (InFlight.hooks (fst (InFlight.step s p)))
  = InFlight.is_awaiting (fst (InFlight.step s p)) /\
  List.length (inserted (snd (InFlight.step s p))) + InFlight.in_flight p
  = List.length (filter InFlight.is_report (snd (InFlight.step s p)))
    + InFlight.in_flight (fst (InFlight.step s p)).
Proof.
  intros s [st aw] Hinv;
    unfold InFlight.is_awaiting, InFlight.in_flight in *; simpl in Hinv.
  destruct s as [ev | error].
  - destruct ev as [data|outcome| |value|checked|sid v| |user now error];
      try (cbn [InFlight.step InFlight.hooks InFlight.awaiting fst snd];
           match goal with
           | |- context [handle ?e st] =>
               destruct (handle_keeps_saving e st I) as (Hs & Hi & Hr)
           end;
           rewrite Hs, Hi, Hr; split; [exact Hinv | reflexivity]).
    cbn [InFlight.step InFlight.hooks].
    destruct (saving st) eqn:Hsav;
      [split; [simpl; rewrite Hsav; exact Hinv | reflexivity]|].
    destruct aw; [discriminate|].
    destruct user as [u|]; [|split; [simpl; exact Hsav | reflexivity]].
    unfold InFlight.saveAttendance_begin; simpl.
    destruct (_ && _); split; reflexivity.
  - unfold InFlight.step, InFlight.saveAttendance_settle; simpl.
    destruct aw as [period|]; [|split; [exact Hinv | reflexivity]].
    destruct error as [m|]; [destruct (Js.includes m _)|]; split; reflexivity.
Qed.

Lemma in_flight_run_cons : forall s steps p,
  InFlight.run (s :: steps) p =
  (fst (InFlight.run steps (fst (InFlight.step s p))),
   snd (InFlight.step s p) ++ snd (InFlight.run steps (fst (InFlight.step s p)))).
Proof.
  intros s steps p; simpl.
  destruct (InFlight.step s p) as [p1 out1]; simpl.
  destruct (InFlight.run steps p1); reflexivity.
Qed.

Lemma run_balance : forall steps p,
  saving (InFlight.hooks p) = InFlight.is_awaiting p ->
  saving (InFlight.hooks (fst (InFlight.run steps p)))
  = InFlight.is_awaiting (fst (InFlight.run steps p)) /\
  List.length (inserted (snd (InFlight.run steps p))) + InFlight.in_flight p
  = List.length (filter InFlight.is_report (snd (InFlight.run steps p)))
    + InFlight.in_flight (fst (InFlight.run steps p)).
Proof.
  induction steps as [|s steps IH]; intros p Hinv; [split; [exact Hinv | reflexivity]|].
  rewrite in_flight_run_cons; cbn [fst snd].
  destruct (step_balance s p Hinv) as [Hinv1 Hbal1].
  destruct (IH _ Hinv1) as [Hinv2 Hbal2].
  split; [exact Hinv2|].
  unfold inserted in *; rewrite flat_map_app, filter_app, !length_app; lia.
Qed.

(** X7.  Followed across the wait for the insert, the [saving] flag is on
    exactly while an insert awaits its answer; at any moment the inserts
    sent are the answers reported by a toast plus the one, at most, still
    awaited, so no second insert is sent while one is under way; and once
    the answer has come, whatever it is, the flag is off again. *)
Theorem saving_while_insert_awaited : forall steps error,
  let p := fst (InFlight.run steps InFlight.start) in
  let out := snd (InFlight.run steps InFlight.start) in
  saving (InFlight.hooks p) = InFlight.is_awaiting p /\
  List.length (inserted out)
  = List.length (filter InFlight.is_report out) + InFlight.in_flight p /\
  InFlight.in_flight p <= 1 /\
  saving (InFlight.hooks
            (fst (InFlight.run (steps ++ [InFlight.InsertSettled error])
                    InFlight.start))) = false.
Proof.
  intros steps error p out; subst p out.
  destruct (run_balance steps InFlight.start eq_refl) as [Hinv Hbal].
  change (InFlight.in_flight InFlight.start) with 0 in Hbal.
  split; [exact Hinv|]. split; [lia|].
  split; [unfold InFlight.in_flight; destruct (InFlight.awaiting _); lia|].
  destruct (run_balance (steps ++ [InFlight.InsertSettled error])
              InFlight.start eq_refl) as [Hinv' _].
  rewrite Hinv'; clear Hinv'.
  assert (Happ : forall l p,
            fst (InFlight.run (l ++ [InFlight.InsertSettled error]) p)
            = fst (InFlight.saveAttendance_settle error (fst (InFlight.run l p)))).
  { induction l as [|s l IHl]; intros p0.
    - simpl. destruct (InFlight.saveAttendance_settle error p0); reflexivity.
    - rewrite <- app_comm_cons, !in_flight_run_cons; cbn [fst]; apply IHl. }
  rewrite Happ; unfold InFlight.saveAttendance_settle, InFlight.is_awaiting.
  destruct (InFlight.awaiting (fst (InFlight.run steps InFlight.start))) eqn:E;
    simpl; [reflexivity | rewrite E; reflexivity].
Qed.

(** A save under way: a second click on Save is ignored, a status button
    still works, and the flag is on until the answer comes. *)
Example save_under_way :
  let steps := [InFlight.Occurs (StudentsFetched (Some [Sample.alice; Sample.bob]));
                InFlight.Occurs (ClickSave (Some Sample.teacher) Sample.now None);
                InFlight.Occurs (ClickSave (Some Sample.teacher) Sample.later None);
                InFlight.Occurs (ClickStatus "s1" present)] in
  let p := fst (InFlight.run steps InFlight.start) in
  saving (InFlight.hooks p) = true /\
  InFlight.in_flight p = 1 /\
  List.length (inserted (snd (InFlight.run steps InFlight.start))) = 1 /\
  map status (attendance (InFlight.hooks p)) = [present; absent] /\
  saving (InFlight.hooks
            (fst (InFlight.run (steps ++ [InFlight.InsertSettled None])
                    InFlight.start))) = false.
Proof. repeat split. Qed.

Lemma at_once_step : forall ev st,
  InFlight.run (InFlight.at_once ev) {| InFlight.hooks := st; InFlight.awaiting := None |}
  = ({| InFlight.hooks := fst (handle ev st); InFlight.awaiting := None |},
     snd (handle ev st)).
Proof.
  intros ev st; destruct ev as [data|outcome| |value|checked|sid v| |user now error];
    try (simpl; rewrite ?app_nil_r; reflexivity).
  simpl. destruct (saving st) eqn:Hsav.
  - cbn. reflexivity.
  - destruct user as [u|]; [|reflexivity].
    unfold InFlight.saveAttendance_begin, saveAttendance; simpl.
    destruct (_ && _); simpl; [reflexivity|].
    destruct error as [m|]; [destruct (Js.includes m _)|]; reflexivity.
Qed.

Lemma in_flight_run_app : forall l1 l2 p,
  InFlight.run (l1 ++ l2) p =
  (fst (InFlight.run l2 (fst (InFlight.run l1 p))),
   snd (InFlight.run l1 p) ++ snd (InFlight.run l2 (fst (InFlight.run l1 p)))).
Proof.
  induction l1 as [|s l1 IH]; intros l2 p.
  - simpl; destruct (InFlight.run l2 p); reflexivity.
  - rewrite <- app_comm_cons, !in_flight_run_cons, IH; cbn [fst snd].
    rewrite app_assoc; reflexivity.
Qed.

(** X25.  When the answer to every save comes before anything else
    happens, the page followed across the wait goes through the same hooks
    and sends the same inserts, toasts and logs as the page whose save is
    one step. *)
Theorem answers_at_once : forall evs,
  InFlight.run (flat_map InFlight.at_once evs) InFlight.start
  = ({| InFlight.hooks := fst (run evs init); InFlight.awaiting := None |},
     snd (run evs init)).
Proof.
  intros evs; unfold InFlight.start; generalize init as st.
  induction evs as [|ev evs IH]; intros st; [reflexivity|].
  cbn [flat_map]; rewrite in_flight_run_app, at_once_step; cbn [fst snd].
  rewrite IH, run_cons; reflexivity.
Qed.
